(** * PDF merge / compress / PDF-A pipeline: a shallow embedding

    The repository holds two variants of one Tk front end that drives
    Ghostscript from a YAML document:

    - [acionador_ghostscript.py]: Portuguese configuration keys, merge
      items may be dictionaries with a page range;
    - [pdf_tool_gui_logs.py]: English configuration keys, merge items are
      handed to the engine as they are.

    Both files define [log_write], [run_gs], [load_config] and [process].
    The embedding follows the control flow of [process] statement by
    statement.  What Python's runtime and standard library supply
    ([os.path], [subprocess.run], the file dialog, [repr] of containers,
    [str.strip], the clock) is gathered in the record [world]; the
    effects of [process] (log lines, engine invocations, message boxes)
    are threaded through an explicit [state]; Python exceptions and the
    early [return]s of [process] are the two abnormal results of the
    monad [M].

    YAML floats, timestamps and non-string mapping keys are outside the
    model. *)

From Stdlib Require Import String Ascii List ZArith Bool Lia DecimalString.
Import ListNotations.
Open Scope string_scope.

Set Implicit Arguments.

(** ** Values produced by [yaml.safe_load] *)

#[warnings="-register-all"]
Inductive yaml : Type :=
| YNull
| YBool (b : bool)
| YInt (z : Z)
| YStr (s : string)
| YList (items : list yaml)
| YMap (entries : list (string * yaml)).

(** Python truth value of a loaded document ([if x:], [not x]). *)
Definition truthy (v : yaml) : bool :=
  match v with
  | YNull => false
  | YBool b => b
  | YInt z => negb (z =? 0)%Z
  | YStr s => negb (s =? "")
  | YList l => match l with [] => false | _ => true end
  | YMap m => match m with [] => false | _ => true end
  end.

(** [x is None] *)
Definition is_none (v : yaml) : bool :=
  match v with YNull => true | _ => false end.

(** A dictionary is kept as the list of its items; a key is looked up
    from the front. *)
Fixpoint lookup (k : string) (m : list (string * yaml)) : option yaml :=
  match m with
  | [] => None
  | (k', v) :: m' => if k' =? k then Some v else lookup k m'
  end.

(** [d.get(k, default)] on a dictionary. *)
Definition dict_get (m : list (string * yaml)) (k : string) (default : yaml) : yaml :=
  match lookup k m with Some v => v | None => default end.

(** [d[k] = v] on a dictionary (used to vary a configuration). *)
Fixpoint assoc_set (k : string) (v : yaml) (m : list (string * yaml))
  : list (string * yaml) :=
  match m with
  | [] => [(k, v)]
  | (k', v') :: m' => if k' =? k then (k, v) :: m' else (k', v') :: assoc_set k v m'
  end.

(** [l.append(x)] *)
Definition append {A} (l : list A) (x : A) : list A := (l ++ [x])%list.

Definition nl : string := String "010"%char "".

(** [str(n)] for an integer. *)
Definition str_int (z : Z) : string := NilZero.string_of_int (Z.to_int z).

(** Iterating a [str] yields its code points; strings are kept as UTF-8
    bytes, so continuation bytes stay with their lead byte. *)
Definition is_continuation (c : ascii) : bool :=
  match c with Ascii _ _ _ _ _ _ b6 b7 => b7 && negb b6 end.

Fixpoint code_points_aux (s : string) : string * list string :=
  match s with
  | EmptyString => ("", [])
  | String c s' =>
      let '(pending, out) := code_points_aux s' in
      if is_continuation c then (String c pending, out)
      else ("", String c pending :: out)
  end.

Definition code_points (s : string) : list string :=
  let '(pending, out) := code_points_aux s in
  match pending with EmptyString => out | _ => pending :: out end.

(** ** The environment of a run *)

(** Result of [subprocess.run(cmd, stdout=PIPE, stderr=PIPE, text=True)]:
    the child exited, or the call raised. *)
Inductive completed : Type :=
| Exited (returncode : Z) (stdout stderr : string)
| Spawn_error (text : string).

Record world : Type := mkWorld {
  (** [os.path.dirname], [os.path.join], [os.path.abspath], [os.path.exists] *)
  os_path_dirname : string -> string;
  os_path_join : list string -> string;
  os_path_abspath : string -> string;
  os_path_exists : string -> bool;
  (** what the user picks in [filedialog.askopenfilenames] *)
  askopenfilenames : list string;
  (** the engine: result of an invocation, given the invocations that
      came before it in this run *)
  subprocess_run : list (list yaml) -> list yaml -> completed;
  (** [str] of a list or a dictionary *)
  repr_container : yaml -> string;
  (** [str.strip] *)
  str_strip : string -> string;
  (** [str(datetime.now())] *)
  datetime_now : string
}.

(** ** Exceptions, effects and the monad of [process] *)

Inductive exn : Type :=
| KeyError (key : string)
| AttributeError (attr : string)
| TypeError
| UnboundLocalError (name : string).

Inductive box : Type :=
| showerror (title msg : string)
| showinfo (title msg : string).

Record state : Type := mkState {
  log : list string;            (** lines appended to the log file *)
  calls : list (list yaml);     (** argument vectors given to the engine *)
  boxes : list box              (** message boxes shown *)
}.

Definition start : state := mkState [] [] [].

(** A statement ends normally with a value, executes [return] inside
    [process], or raises. *)
Inductive ctl (A : Type) : Type :=
| Val (a : A)
| Return
| Raise (e : exn).

Arguments Return {A}.
Arguments Raise {A} e.

Definition M (A : Type) : Type := state -> ctl A * state.

Definition ret {A} (a : A) : M A := fun st => (Val a, st).

Definition bind {A B} (c : M A) (f : A -> M B) : M B :=
  fun st =>
    match c st with
    | (Val a, st') => f a st'
    | (Return, st') => (Return, st')
    | (Raise e, st') => (Raise e, st')
    end.

Definition early_return {A} : M A := fun st => (Return, st).
Definition raise {A} (e : exn) : M A := fun st => (Raise e, st).

Notation "x <- c1 ;; c2" := (bind c1 (fun x => c2))
  (at level 61, c1 at next level, right associativity).
Notation "' pat <- c1 ;; c2" := (bind c1 (fun x => match x with pat => c2 end))
  (at level 61, pat pattern, c1 at next level, right associativity).
Notation "c1 ;; c2" := (bind c1 (fun _ => c2))
  (at level 61, right associativity).

(** [log_write(log_file, text)] *)
Definition log_write (text : string) : M unit :=
  fun st => (Val tt, mkState (log st ++ [text]) (calls st) (boxes st)).

(** [messagebox.showerror] / [messagebox.showinfo] *)
Definition messagebox (b : box) : M unit :=
  fun st => (Val tt, mkState (log st) (calls st) (boxes st ++ [b])).

(** [v[k]] *)
Definition subscript (v : yaml) (k : string) : M yaml :=
  match v with
  | YMap m => match lookup k m with
              | Some x => ret x
              | None => raise (KeyError k)
              end
  | _ => raise TypeError
  end.

(** [v.get(k, default)] *)
Definition py_get (v : yaml) (k : string) (default : yaml) : M yaml :=
  match v with
  | YMap m => ret (dict_get m k default)
  | _ => raise (AttributeError "get")
  end.

(** Reading a local variable of [process] that may not have been
    assigned on the path taken. *)
Definition read_local (name : string) (v : option yaml) : M yaml :=
  match v with
  | Some x => ret x
  | None => raise (UnboundLocalError name)
  end.

(** [for item in v] *)
Definition py_iter (v : yaml) : M (list yaml) :=
  match v with
  | YList l => ret l
  | YStr s => ret (map YStr (code_points s))
  | YMap m => ret (map (fun kv => YStr (fst kv)) m)
  | _ => raise TypeError
  end.

Section Shared.

Variable w : world.

(** [str(v)], as an f-string interpolates it. *)
Definition py_str (v : yaml) : string :=
  match v with
  | YNull => "None"
  | YBool true => "True"
  | YBool false => "False"
  | YInt z => str_int z
  | YStr s => s
  | _ => repr_container w v
  end.

Fixpoint log_each (lines : list string) : M unit :=
  match lines with
  | [] => ret tt
  | l :: ls => log_write l ;; log_each ls
  end.

(** The call of [subprocess.run]: the argument vector is recorded and
    the world answers. *)
Definition spawn (cmd : list yaml) : M completed :=
  fun st => (Val (subprocess_run w (calls st) cmd),
             mkState (log st) (calls st ++ [cmd]) (boxes st)).

(** [run_gs(cmd, log_file)], identical in both files (lines 32-61). *)
Definition run_gs (cmd : list yaml) : M (bool * string) :=
  log_write (nl ++ "--- Running Ghostscript Command ---") ;;
  log_write "Command:" ;;
  log_each (map (fun c => "  " ++ py_str c) cmd) ;;
  result <- spawn cmd ;;
  match result with
  | Exited returncode stdout stderr =>
      log_write (nl ++ "STDOUT:") ;;
      log_write (str_strip w stdout) ;;
      log_write (nl ++ "STDERR:") ;;
      log_write (str_strip w stderr) ;;
      if negb (returncode =? 0)%Z then
        log_write (nl ++ "ERROR: Exit code " ++ str_int returncode) ;;
        ret (false, stderr)
      else
        log_write (nl ++ "SUCCESS (exit code 0)" ++ nl) ;;
        ret (true, "")
  | Spawn_error text =>
      log_write (nl ++ "EXCEPTION: " ++ text) ;;
      ret (false, text)
  end.

(** Lines 92-111 of [process], the same in both files but for the two
    configuration keys: the log header, the engine path, and the
    PDFA_def.ps check. Returns [gs] and [pdfa_def]. *)
Definition preflight (k_paths k_gs : string) (config : yaml) : M (string * string) :=
  log_write "=== PDF Processing Log Started ===" ;;
  log_write ("Timestamp: " ++ datetime_now w) ;;
  log_write ("----------------------------------" ++ nl) ;;
  paths <- subscript config k_paths ;;
  gs <- subscript paths k_gs ;;
  log_write ("Ghostscript path: " ++ py_str gs) ;;
  match gs with
  | YStr g =>
      let pdfa_def :=
        os_path_abspath w
          (os_path_join w [os_path_dirname w g; ".."; ".."; "lib"; "PDFA_def.ps"]) in
      log_write ("PDF/A definition file: " ++ pdfa_def) ;;
      if negb (os_path_exists w pdfa_def) then
        let msg := "PDFA_def.ps não encontrado em:" ++ nl ++ pdfa_def in
        log_write msg ;;
        messagebox (showerror "Erro" msg) ;;
        early_return
      else ret (g, pdfa_def)
  | _ => raise TypeError
  end.

End Shared.

(** ** [acionador_ghostscript.py] *)

Module Acionador.

Section Process.

Variable w : world.

(** Lines 118-136: the body of [if config.get("juntar", {}).get("ativado", False)].
    The two locals assigned here, [merge_files] and [saida_juncao], stay
    unassigned when the test is false. *)
Definition merge_block (config : yaml) : M (option yaml * option yaml) :=
  juntar <- py_get config "juntar" (YMap []) ;;
  ativado <- py_get juntar "ativado" (YBool false) ;;
  if truthy ativado then
    juntar <- subscript config "juntar" ;;
    merge_files <- py_get juntar "arquivos" (YList []) ;;
    log_write "Estágio de junção ativado." ;;
    let merge_files :=
      if negb (truthy merge_files) then YList (map YStr (askopenfilenames w))
      else merge_files in
    log_write ("Arquivos de entrada para junção: " ++ py_str w merge_files) ;;
    if negb (truthy merge_files) then
      let msg := "Nenhum arquivo para juntar." in
      log_write msg ;;
      messagebox (showerror "Erro" msg) ;;
      early_return
    else
      juntar <- subscript config "juntar" ;;
      saida_juncao <- subscript juntar "saida" ;;
      ret (Some merge_files, Some saida_juncao)
  else ret (None, None).

(** Lines 138-144. *)
Definition merge_header (gs : string) (saida_juncao : yaml) : list yaml :=
  [YStr gs; YStr "-dBATCH"; YStr "-dNOPAUSE"; YStr "-sDEVICE=pdfwrite";
   YStr ("-sOutputFile=" ++ py_str w saida_juncao)].

(** Lines 161-164: a page bound is emitted when it is truthy. *)
Definition page_flag (flag : string) (v : yaml) : list yaml :=
  if truthy v then [YStr (flag ++ py_str w v)] else [].

(** What one turn of the loop of line 147 does to [cmd] before the
    engine is run: append arguments, [continue], or log a warning. *)
Inductive step : Type :=
| Append (args : list yaml)
| Continue
| Unrecognized.

Definition item_step (item : yaml) : step :=
  match item with
  | YStr _ => Append [item]
  | YMap d =>
      let caminho := dict_get d "arquivo" YNull in
      if negb (truthy caminho) then Continue
      else
        let pagina_inicial := dict_get d "pagina_inicial" YNull in
        let pagina_final := dict_get d "pagina_final" YNull in
        Append (page_flag "-dFirstPage=" pagina_inicial
                ++ page_flag "-dLastPage=" pagina_final
                ++ [caminho])
  | _ => Unrecognized
  end.

Definition item_args (item : yaml) : list yaml :=
  match item_step item with
  | Append args => args
  | _ => []
  end.

(** The value of [cmd] once the loop has gone through [items]. *)
Definition merge_cmd (gs : string) (saida_juncao : yaml) (items : list yaml) : list yaml :=
  fold_left (fun cmd item => (cmd ++ item_args item)%list) items (merge_header gs saida_juncao).

(** Lines 147-177: the loop. [run_gs], the success message and the
    assignment of [input_for_next_step] are inside the loop body. *)
Fixpoint merge_loop (saida_juncao : yaml) (items : list yaml) (cmd : list yaml)
    (messages : list string) (input_for_next_step : option yaml)
  : M (list string * option yaml) :=
  match items with
  | [] => ret (messages, input_for_next_step)
  | item :: rest =>
      let run (cmd : list yaml) :=
        '(ok, err) <- run_gs w cmd ;;
        if negb ok then
          messagebox (showerror "Erro na junção " err) ;;
          early_return
        else
          merge_loop saida_juncao rest cmd
            (append messages ("Junção OK → " ++ py_str w saida_juncao))
            (Some saida_juncao) in
      match item_step item with
      | Append args => run (cmd ++ args)%list
      | Continue => merge_loop saida_juncao rest cmd messages input_for_next_step
      | Unrecognized =>
          log_write ("Entrada não reconhecida em 'arquivos': " ++ py_str w item) ;;
          run cmd
      end
  end.

(** Lines 138-177: [cmd] is built from [saida_juncao] and the loop runs
    over [merge_files], whether or not the merge block assigned them. *)
Definition merge_run (gs : string) (merge_files saida_juncao : option yaml)
  : M (list string * option yaml) :=
  saida <- read_local "saida_juncao" saida_juncao ;;
  let cmd := merge_header gs saida in
  files <- read_local "merge_files" merge_files ;;
  items <- py_iter files ;;
  merge_loop saida items cmd [] None.

(** Lines 182-210. *)
Definition compress (config : yaml) (gs : string) (messages : list string)
    (input_for_next_step : option yaml) : M (list string * option yaml) :=
  compactar <- py_get config "compactar" (YMap []) ;;
  ativado <- py_get compactar "ativado" (YBool false) ;;
  if truthy ativado then
    log_write "Estágio de compressão ativado." ;;
    input <- read_local "input_for_next_step" input_for_next_step ;;
    if is_none input then
      messagebox (showerror "Erro" "Nenhum PDF para compactação.") ;;
      early_return
    else
      compactar <- subscript config "compactar" ;;
      output_compress <- subscript compactar "saida" ;;
      parametros <- subscript config "parametros" ;;
      level <- subscript parametros "compactacao" ;;
      log_write ("Nível de compactação: " ++ py_str w level) ;;
      let cmd :=
        [YStr gs; YStr "-dBATCH"; YStr "-dNOPAUSE"; YStr "-sDEVICE=pdfwrite";
         YStr ("-dPDFSETTINGS=/" ++ py_str w level);
         YStr ("-sOutputFile=" ++ py_str w output_compress);
         input] in
      '(ok, err) <- run_gs w cmd ;;
      if negb ok then
        messagebox (showerror "Erro na Compactação" err) ;;
        early_return
      else
        ret (append messages ("Compressão OK → " ++ py_str w output_compress),
             Some output_compress)
  else ret (messages, input_for_next_step).

(** The argument vector of lines 227-238. *)
Definition pdfa_cmd (gs pdfa_def : string) (output_pdfa input : yaml) : list yaml :=
  [YStr gs; YStr "-dPDFA=2"; YStr "-sDEVICE=pdfwrite";
   YStr "-dNOPAUSE"; YStr "-dBATCH"; YStr "-dNOOUTERSAVE";
   YStr "-sColorConversionStrategy=RGB";
   YStr "-sProcessColorModel=DeviceRGB";
   YStr ("-sOutputFile=" ++ py_str w output_pdfa);
   YStr "-dPDFACompatibilityPolicy=1";
   YStr pdfa_def;
   input].

(** Lines 215-245. *)
Definition pdfa (config : yaml) (gs pdfa_def : string) (messages : list string)
    (input_for_next_step : option yaml) : M (list string) :=
  section <- py_get config "pdfa" (YMap []) ;;
  ativado <- py_get section "ativado" (YBool false) ;;
  if truthy ativado then
    log_write "Estágio de criação de PDF/A ativado." ;;
    input <- read_local "input_for_next_step" input_for_next_step ;;
    if is_none input then
      messagebox (showerror "Erro" "Nenhum PDF para PDF/A.") ;;
      early_return
    else
      section <- subscript config "pdfa" ;;
      output_pdfa <- subscript section "saida" ;;
      section <- subscript config "pdfa" ;;
      profile <- py_get section "perfil" (YStr "PDF/A-2b") ;;
      log_write ("PDF/A profile: " ++ py_str w profile) ;;
      '(ok, err) <- run_gs w (pdfa_cmd gs pdfa_def output_pdfa input) ;;
      if negb ok then
        messagebox (showerror "Erro PDF/A" err) ;;
        early_return
      else
        ret (append messages ("PDF/A OK → " ++ py_str w output_pdfa))
  else ret messages.

(** Lines 118-177: the merge stage. *)
Definition merge (config : yaml) (gs : string) : M (list string * option yaml) :=
  '(merge_files, saida_juncao) <- merge_block config ;;
  merge_run gs merge_files saida_juncao.

(** Lines 113-245: the three stages, from the point where [messages] is
    created. *)
Definition stages (config : yaml) (gs pdfa_def : string) : M (list string) :=
  '(messages, input_for_next_step) <- merge config gs ;;
  '(messages, input_for_next_step) <- compress config gs messages input_for_next_step ;;
  pdfa config gs pdfa_def messages input_for_next_step.

(** [process], from the configuration that [load_config] returned
    ([YNull] when it returned [None]).  The value is the list [messages]
    shown in the final box. *)
Definition process (config : yaml) : M (list string) :=
  if negb (truthy config) then early_return
  else
    '(gs, pdfa_def) <- preflight w "caminhos" "ghostscript" config ;;
    messages <- stages config gs pdfa_def ;;
    log_write (nl ++ "=== Process Finished ===" ++ nl) ;;
    messagebox (showinfo "Concluído" (String.concat nl messages)) ;;
    ret messages.

End Process.

End Acionador.

(** ** [pdf_tool_gui_logs.py] *)

Module GuiLogs.

Section Process.

Variable w : world.

(** Lines 138-144: the fixed flags; [merge_files] is concatenated to them. *)
Definition merge_header (gs : string) (output_merge : yaml) : list yaml :=
  [YStr gs; YStr "-dBATCH"; YStr "-dNOPAUSE"; YStr "-sDEVICE=pdfwrite";
   YStr ("-sOutputFile=" ++ py_str w output_merge)].

(** [[...] + merge_files]: defined when the right operand is a list. *)
Definition list_concat (l : list yaml) (v : yaml) : M (list yaml) :=
  match v with
  | YList items => ret (l ++ items)%list
  | _ => raise TypeError
  end.

(** Lines 118-154. Here [input_for_next_step] is assigned on both
    branches. *)
Definition merge (config : yaml) (gs : string) : M (list string * yaml) :=
  section <- py_get config "merge" (YMap []) ;;
  enabled <- py_get section "enabled" (YBool false) ;;
  if truthy enabled then
    section <- subscript config "merge" ;;
    merge_files <- py_get section "files" (YList []) ;;
    log_write "Merge stage enabled." ;;
    let merge_files :=
      if negb (truthy merge_files) then YList (map YStr (askopenfilenames w))
      else merge_files in
    log_write ("Merge input files: " ++ py_str w merge_files) ;;
    if negb (truthy merge_files) then
      let msg := "Nenhum arquivo para merge." in
      log_write msg ;;
      messagebox (showerror "Erro" msg) ;;
      early_return
    else
      section <- subscript config "merge" ;;
      output_merge <- subscript section "output" ;;
      cmd <- list_concat (merge_header gs output_merge) merge_files ;;
      '(ok, err) <- run_gs w cmd ;;
      if negb ok then
        messagebox (showerror "Erro no Merge" err) ;;
        early_return
      else
        ret (append [] ("Merge OK → " ++ py_str w output_merge), output_merge)
  else ret ([], YNull).

(** Lines 159-187. *)
Definition compress (config : yaml) (gs : string) (messages : list string)
    (input_for_next_step : yaml) : M (list string * yaml) :=
  section <- py_get config "compress" (YMap []) ;;
  enabled <- py_get section "enabled" (YBool false) ;;
  if truthy enabled then
    log_write "Compression stage enabled." ;;
    if is_none input_for_next_step then
      messagebox (showerror "Erro" "Nenhum PDF para compressão.") ;;
      early_return
    else
      section <- subscript config "compress" ;;
      output_compress <- subscript section "output" ;;
      settings <- subscript config "settings" ;;
      level <- subscript settings "compression" ;;
      log_write ("Compression level: " ++ py_str w level) ;;
      let cmd :=
        [YStr gs; YStr "-dBATCH"; YStr "-dNOPAUSE"; YStr "-sDEVICE=pdfwrite";
         YStr ("-dPDFSETTINGS=/" ++ py_str w level);
         YStr ("-sOutputFile=" ++ py_str w output_compress);
         input_for_next_step] in
      '(ok, err) <- run_gs w cmd ;;
      if negb ok then
        messagebox (showerror "Erro na Compressão" err) ;;
        early_return
      else
        ret (append messages ("Compressão OK → " ++ py_str w output_compress),
             output_compress)
  else ret (messages, input_for_next_step).

(** The argument vector of lines 204-215. *)
Definition pdfa_cmd (gs pdfa_def : string) (output_pdfa input : yaml) : list yaml :=
  [YStr gs; YStr "-dPDFA=2"; YStr "-sDEVICE=pdfwrite";
   YStr "-dNOPAUSE"; YStr "-dBATCH"; YStr "-dNOOUTERSAVE";
   YStr "-sColorConversionStrategy=RGB";
   YStr "-sProcessColorModel=DeviceRGB";
   YStr ("-sOutputFile=" ++ py_str w output_pdfa);
   YStr "-dPDFACompatibilityPolicy=1";
   YStr pdfa_def;
   input].

(** Lines 192-222. *)
Definition pdfa (config : yaml) (gs pdfa_def : string) (messages : list string)
    (input_for_next_step : yaml) : M (list string) :=
  section <- py_get config "pdfa" (YMap []) ;;
  enabled <- py_get section "enabled" (YBool false) ;;
  if truthy enabled then
    log_write "PDF/A stage enabled." ;;
    if is_none input_for_next_step then
      messagebox (showerror "Erro" "Nenhum PDF para PDF/A.") ;;
      early_return
    else
      section <- subscript config "pdfa" ;;
      output_pdfa <- subscript section "output" ;;
      section <- subscript config "pdfa" ;;
      profile <- py_get section "profile" (YStr "PDF/A-2b") ;;
      log_write ("PDF/A profile: " ++ py_str w profile) ;;
      '(ok, err) <- run_gs w (pdfa_cmd gs pdfa_def output_pdfa input_for_next_step) ;;
      if negb ok then
        messagebox (showerror "Erro PDF/A" err) ;;
        early_return
      else
        ret (append messages ("PDF/A OK → " ++ py_str w output_pdfa))
  else ret messages.

(** Lines 113-222. *)
Definition stages (config : yaml) (gs pdfa_def : string) : M (list string) :=
  '(messages, input_for_next_step) <- merge config gs ;;
  '(messages, input_for_next_step) <- compress config gs messages input_for_next_step ;;
  pdfa config gs pdfa_def messages input_for_next_step.

(** [process], from the configuration that [load_config] returned. *)
Definition process (config : yaml) : M (list string) :=
  if negb (truthy config) then early_return
  else
    '(gs, pdfa_def) <- preflight w "paths" "ghostscript" config ;;
    messages <- stages config gs pdfa_def ;;
    log_write (nl ++ "=== Process Finished ===" ++ nl) ;;
    messagebox (showinfo "Concluído" (String.concat nl messages)) ;;
    ret messages.

End Process.

End GuiLogs.

(** ** Test doubles *)

(** POSIX flavour of the three path functions, for paths without
    doubled or trailing separators. *)
Fixpoint split_slash (s : string) : list string :=
  match s with
  | EmptyString => [""]
  | String c s' =>
      match split_slash s' with
      | [] => [String c ""]
      | x :: xs => if (c =? "/")%char then "" :: x :: xs else String c x :: xs
      end
  end.

Definition posix_dirname (p : string) : string :=
  match rev (split_slash p) with
  | _ :: d :: ds => String.concat "/" (rev (d :: ds))
  | _ => ""
  end.

Definition posix_join (parts : list string) : string := String.concat "/" parts.

Fixpoint normalize (done todo : list string) : list string :=
  match todo with
  | [] => rev done
  | ".." :: todo' => normalize (tl done) todo'
  | x :: todo' => normalize (x :: done) todo'
  end.

Definition posix_abspath (p : string) : string :=
  String.concat "/" (normalize [] (split_slash p)).

(** An engine that exits with [code] whatever it is given. *)
Definition exits (code : Z) (stderr : string) (history : list (list yaml))
    (cmd : list yaml) : completed :=
  Exited code "" stderr.

(** An engine that cannot be started on an argument vector holding
    anything but strings, and otherwise exits with [code]. *)
Definition all_strings (cmd : list yaml) : bool :=
  forallb (fun c => match c with YStr _ => true | _ => false end) cmd.

Definition strict (code : Z) (stderr : string) (history : list (list yaml))
    (cmd : list yaml) : completed :=
  if all_strings cmd then Exited code "" stderr
  else Spawn_error "expected str, bytes or os.PathLike object".

(** A machine where PDFA_def.ps is installed, or not, with the given
    engine; nothing is picked in the file dialog. *)
Definition machine (installed : bool)
    (run : list (list yaml) -> list yaml -> completed) : world :=
  {| os_path_dirname := posix_dirname;
     os_path_join := posix_join;
     os_path_abspath := posix_abspath;
     os_path_exists := fun _ => installed;
     askopenfilenames := [];
     subprocess_run := run;
     repr_container := fun _ => "<container>";
     str_strip := fun s => s;
     datetime_now := "2025-01-01 00:00:00" |}.

(** * Vocabulary of the properties *)

Section Vocabulary.

Variable w : world.

(** What [run_gs] returns for each result of [subprocess.run]. *)
Definition classify (r : completed) : bool * string :=
  match r with
  | Exited returncode _ stderr =>
      if (returncode =? 0)%Z then (true, "") else (false, stderr)
  | Spawn_error text => (false, text)
  end.

(** What [run_gs] writes to the log. *)
Definition outcome_lines (r : completed) : list string :=
  match r with
  | Exited returncode stdout stderr =>
      [nl ++ "STDOUT:"; str_strip w stdout; nl ++ "STDERR:"; str_strip w stderr;
       if (returncode =? 0)%Z then nl ++ "SUCCESS (exit code 0)" ++ nl
       else nl ++ "ERROR: Exit code " ++ str_int returncode]
  | Spawn_error text => [nl ++ "EXCEPTION: " ++ text]
  end.

Definition run_gs_log (cmd : list yaml) (r : completed) : list string :=
  app [nl ++ "--- Running Ghostscript Command ---"; "Command:"]
      (app (map (fun c => "  " ++ py_str w c) cmd) (outcome_lines r)).

(** The flag the spec expects for an optional page bound. *)
Definition bound (flag : string) (page : option Z) : list yaml :=
  match page with
  | Some n => [YStr (flag ++ str_int n)]
  | None => []
  end.

Definition page_value (page : option Z) : yaml :=
  match page with Some n => YInt n | None => YNull end.

(** An item at which the loop body executes [continue]: a dictionary
    without a (truthy) ["arquivo"]. *)
Definition skipped (item : yaml) : bool :=
  match Acionador.item_step w item with
  | Acionador.Continue => true
  | _ => false
  end.

(** Positions of the items at which the loop body reaches [run_gs]. *)
Definition invoked (items : list yaml) : list nat :=
  filter (fun i => negb (skipped (nth i items YNull))) (seq 0 (length items)).

(** Where [process] looks for PDFA_def.ps: two directories above the
    directory of the engine, then [lib]. *)
Definition pdfa_def_path (gs : string) : string :=
  os_path_abspath w
    (os_path_join w [os_path_dirname w gs; ".."; ".."; "lib"; "PDFA_def.ps"]).

Definition header_lines (gs : string) : list string :=
  ["=== PDF Processing Log Started ===";
   "Timestamp: " ++ datetime_now w;
   "----------------------------------" ++ nl;
   "Ghostscript path: " ++ gs;
   "PDF/A definition file: " ++ pdfa_def_path gs].

Definition not_found (gs : string) : string :=
  "PDFA_def.ps não encontrado em:" ++ nl ++ pdfa_def_path gs.

End Vocabulary.

(** An engine that exits with code 0 on every invocation. *)
Definition always_exits_zero (w : world) : Prop :=
  forall history cmd, exists out err, subprocess_run w history cmd = Exited 0 out err.

(** The engine path under the two keys of a scheme, when the document
    holds one and it is a string. *)
Definition engine_path (k_paths k_gs : string) (config : yaml) : option string :=
  match config with
  | YMap m =>
      match lookup k_paths m with
      | Some (YMap paths) =>
          match lookup k_gs paths with
          | Some (YStr g) => Some g
          | _ => None
          end
      | _ => None
      end
  | _ => None
  end.

(** The value of the test [config.get(stage, {}).get(key, False)], when
    it can be evaluated. *)
Definition flag (config : yaml) (stage key : string) : option bool :=
  match config with
  | YMap m =>
      match dict_get m stage (YMap []) with
      | YMap s => Some (truthy (dict_get s key (YBool false)))
      | _ => None
      end
  | _ => None
  end.

(** A configuration that switches the three stages off, in the keys of
    [acionador_ghostscript.py]. *)
Definition all_disabled_pt : yaml :=
  YMap [("caminhos", YMap [("ghostscript", YStr "/opt/gs/bin/gs")]);
        ("juntar", YMap [("ativado", YBool false)]);
        ("compactar", YMap [("ativado", YBool false)]);
        ("pdfa", YMap [("ativado", YBool false)])].

(** Compression alone is switched on. *)
Definition compress_only_pt : yaml :=
  YMap [("caminhos", YMap [("ghostscript", YStr "/opt/gs/bin/gs")]);
        ("parametros", YMap [("compactacao", YStr "ebook")]);
        ("juntar", YMap [("ativado", YBool false)]);
        ("compactar", YMap [("ativado", YBool true); ("saida", YStr "small.pdf")])].

(** The same two configurations in the keys of [pdf_tool_gui_logs.py],
    and one with every stage switched on in each scheme. *)
Definition all_disabled_en : yaml :=
  YMap [("paths", YMap [("ghostscript", YStr "/opt/gs/bin/gs")]);
        ("merge", YMap [("enabled", YBool false)]);
        ("compress", YMap [("enabled", YBool false)]);
        ("pdfa", YMap [("enabled", YBool false)])].

Definition compress_only_en : yaml :=
  YMap [("paths", YMap [("ghostscript", YStr "/opt/gs/bin/gs")]);
        ("settings", YMap [("compression", YStr "ebook")]);
        ("merge", YMap [("enabled", YBool false)]);
        ("compress", YMap [("enabled", YBool true); ("output", YStr "small.pdf")])].

Definition all_enabled_pt : yaml :=
  YMap [("caminhos", YMap [("ghostscript", YStr "/opt/gs/bin/gs")]);
        ("parametros", YMap [("compactacao", YStr "ebook")]);
        ("juntar", YMap [("ativado", YBool true);
                         ("arquivos", YList [YStr "a.pdf"; YStr "b.pdf"]);
                         ("saida", YStr "merged.pdf")]);
        ("compactar", YMap [("ativado", YBool true); ("saida", YStr "small.pdf")]);
        ("pdfa", YMap [("ativado", YBool true); ("saida", YStr "archive.pdf")])].

Definition all_enabled_en : yaml :=
  YMap [("paths", YMap [("ghostscript", YStr "/opt/gs/bin/gs")]);
        ("settings", YMap [("compression", YStr "ebook")]);
        ("merge", YMap [("enabled", YBool true);
                        ("files", YList [YStr "a.pdf"; YStr "b.pdf"]);
                        ("output", YStr "merged.pdf")]);
        ("compress", YMap [("enabled", YBool true); ("output", YStr "small.pdf")]);
        ("pdfa", YMap [("enabled", YBool true); ("output", YStr "archive.pdf")])].

(** The scenario of the spec, in the keys of [acionador_ghostscript.py]:
    merge [{a.pdf, pages 2 to 4}, b.pdf] into merged.pdf, nothing else. *)
Definition page_range_scenario : yaml :=
  YMap [("caminhos", YMap [("ghostscript", YStr "/opt/gs/bin/gs")]);
        ("juntar",
         YMap [("ativado", YBool true);
               ("arquivos",
                YList [YMap [("arquivo", YStr "a.pdf");
                             ("pagina_inicial", YInt 2);
                             ("pagina_final", YInt 4)];
                       YStr "b.pdf"]);
               ("saida", YStr "merged.pdf")]);
        ("compactar", YMap [("ativado", YBool false)]);
        ("pdfa", YMap [("ativado", YBool false)])].

(** The configuration with the archive profile set to [profile], the
    key being ["perfil"] or ["profile"]. *)
Definition with_profile (key profile : string) (config : yaml) : yaml :=
  match config with
  | YMap m =>
      match lookup "pdfa" m with
      | Some (YMap a) =>
          YMap (assoc_set "pdfa" (YMap (assoc_set key (YStr profile) a)) m)
      | _ => config
      end
  | _ => config
  end.

(** The log line that shows the profile. *)
Definition profile_line (line : string) : bool :=
  String.prefix "PDF/A profile: " line.

(** Two logs that differ at most in their profile lines. *)
Definition same_but_profile (l1 l2 : list string) : Prop :=
  Forall2 (fun a b => a = b \/ (profile_line a = true /\ profile_line b = true)) l1 l2.

(** Two results that differ at most in the profile lines of the log. *)
Definition similar {A} (r1 r2 : ctl A * state) : Prop :=
  fst r1 = fst r2
  /\ calls (snd r1) = calls (snd r2)
  /\ boxes (snd r1) = boxes (snd r2)
  /\ same_but_profile (log (snd r1)) (log (snd r2)).

(** The configurations that can be written under both schemes: the
    [PipelineConfig] of the spec, with bare paths as merge inputs (the
    English scheme has no notation for a page range) and the archive
    profile kept with the archive stage. *)
Record MergeStage : Type := {
  merge_enabled : bool;
  merge_inputs : list string;
  merge_output : string
}.

Record CompressStage : Type := {
  compress_enabled : bool;
  compress_output : string
}.

Record ArchiveStage : Type := {
  archive_enabled : bool;
  archive_output : string;
  archive_profile : option string
}.

Record PipelineConfig : Type := {
  enginePath : string;
  compressionLevel : string;
  mergeStage : option MergeStage;
  compressStage : option CompressStage;
  archiveStage : option ArchiveStage
}.

(** The names that one file gives to the keys. *)
Record scheme : Type := {
  k_paths : string; k_settings : string; k_level : string;
  k_merge : string; k_compress : string;
  k_enabled : string; k_files : string; k_output : string; k_profile : string
}.

Definition portuguese : scheme :=
  {| k_paths := "caminhos"; k_settings := "parametros"; k_level := "compactacao";
     k_merge := "juntar"; k_compress := "compactar";
     k_enabled := "ativado"; k_files := "arquivos"; k_output := "saida";
     k_profile := "perfil" |}.

Definition english : scheme :=
  {| k_paths := "paths"; k_settings := "settings"; k_level := "compression";
     k_merge := "merge"; k_compress := "compress";
     k_enabled := "enabled"; k_files := "files"; k_output := "output";
     k_profile := "profile" |}.

Definition optional {A} (o : option A) (f : A -> list (string * yaml))
  : list (string * yaml) :=
  match o with Some a => f a | None => [] end.

(** The document that states [pc] in the keys of [s]. *)
Definition render (s : scheme) (pc : PipelineConfig) : yaml :=
  YMap ([(k_paths s, YMap [("ghostscript", YStr (enginePath pc))]);
         (k_settings s, YMap [(k_level s, YStr (compressionLevel pc))])]
        ++ optional (mergeStage pc) (fun ms =>
             [(k_merge s,
               YMap [(k_enabled s, YBool (merge_enabled ms));
                     (k_files s, YList (map YStr (merge_inputs ms)));
                     (k_output s, YStr (merge_output ms))])])
        ++ optional (compressStage pc) (fun cs =>
             [(k_compress s,
               YMap [(k_enabled s, YBool (compress_enabled cs));
                     (k_output s, YStr (compress_output cs))])])
        ++ optional (archiveStage pc) (fun ar =>
             [("pdfa",
               YMap ([(k_enabled s, YBool (archive_enabled ar));
                      (k_output s, YStr (archive_output ar))]
                     ++ optional (archive_profile ar) (fun p =>
                          [(k_profile s, YStr p)])))])).

(** The merge inputs of a run: those of the configuration or, when
    there are none, those picked in the file dialog. *)
Definition effective_inputs (w : world) (ms : MergeStage) : list string :=
  match merge_inputs ms with
  | [] => askopenfilenames w
  | inputs => inputs
  end.

(** The two files agree outright: the same invocations and the same
    result. *)
Definition same_outcome (r1 r2 : ctl (list string) * state) : Prop :=
  calls (snd r1) = calls (snd r2) /\ fst r1 = fst r2.

(** What the two files do share on a merge into [output]: both finish,
    with messages that differ in the name of the merge stage alone, or
    both stop on an error box with the same detail. *)
Inductive agree (output : string)
  : ctl (list string) * state -> ctl (list string) * state -> Prop :=
| agree_finished rest st1 st2 :
    agree output
      (Val (("Junção OK → " ++ output) :: rest), st1)
      (Val (("Merge OK → " ++ output) :: rest), st2)
| agree_stopped title1 title2 detail log1 log2 calls1 calls2 :
    agree output
      (Return, mkState log1 calls1 [showerror title1 detail])
      (Return, mkState log2 calls2 [showerror title2 detail]).

(** Results of one stage in the two files, on a merge into [output]. *)
Definition related {A B} (same : A -> B -> Prop)
    (r1 : ctl A * state) (r2 : ctl B * state) : Prop :=
  calls (snd r1) = calls (snd r2)
  /\ match fst r1, fst r2 with
     | Val a, Val b => same a b /\ boxes (snd r1) = [] /\ boxes (snd r2) = []
     | Return, Return =>
         exists title1 title2 detail,
           boxes (snd r1) = [showerror title1 detail]
           /\ boxes (snd r2) = [showerror title2 detail]
     | _, _ => False
     end.

(** The success lists of the two files after a successful merge. *)
Definition same_messages (output : string) (m1 m2 : list string) : Prop :=
  exists rest,
    m1 = ("Junção OK → " ++ output) :: rest /\ m2 = ("Merge OK → " ++ output) :: rest.

(** The same, with the current artifact. *)
Definition same_locals (output : string)
    (l1 : list string * option yaml) (l2 : list string * yaml) : Prop :=
  same_messages output (fst l1) (fst l2)
  /\ exists artifact, snd l1 = Some (YStr artifact) /\ snd l2 = YStr artifact.

(** One input to merge, then compression and archiving. *)
Definition single_input : PipelineConfig :=
  {| enginePath := "/opt/gs/bin/gs";
     compressionLevel := "ebook";
     mergeStage := Some {| merge_enabled := true; merge_inputs := ["a.pdf"];
                           merge_output := "merged.pdf" |};
     compressStage := Some {| compress_enabled := true;
                              compress_output := "small.pdf" |};
     archiveStage := Some {| archive_enabled := true;
                             archive_output := "archive.pdf";
                             archive_profile := None |} |}.

(** ** [load_config] and the button *)

(** What [yaml.safe_load] on the opened file gives: a document, or an
    exception raised while opening or parsing. *)
Inductive loaded : Type :=
| Document (doc : yaml)
| Load_error (text : string).

(** What [load_config] meets: the path chosen in
    [filedialog.askopenfilename] (empty when the dialog is cancelled)
    and the content of each file. *)
Record desk : Type := mkDesk {
  askopenfilename : string;
  safe_load : string -> loaded
}.

(** [load_config()], lines 67-81 of both files; [None] is [YNull]. *)
Definition load_config (d : desk) : M yaml :=
  let yaml_path := askopenfilename d in
  if negb (truthy (YStr yaml_path)) then
    messagebox (showerror "Erro" "Nenhum arquivo YAML selecionado.") ;;
    ret YNull
  else
    match safe_load d yaml_path with
    | Document doc => ret doc
    | Load_error text =>
        messagebox (showerror "Erro ao ler YAML" text) ;;
        ret YNull
    end.

(** What the button "Executar" runs in each file: [process], from the
    call of [load_config] on. *)
Definition executar_pt (d : desk) (w : world) : M (list string) :=
  config <- load_config d ;;
  Acionador.process w config.

Definition executar_en (d : desk) (w : world) : M (list string) :=
  config <- load_config d ;;
  GuiLogs.process w config.

(** An engine that exits with code 0 on its first [n] invocations and
    with [code] afterwards. *)
Definition fails_after (n : nat) (code : Z) (stderr : string)
    (history : list (list yaml)) (cmd : list yaml) : completed :=
  if (length history <? n)%nat then Exited 0 "" "" else Exited code "" stderr.

(** ** Invariants of a statement *)

(** A statement only appends to the log and to the invocations, leaves
    the boxes as they are when it ends normally or raises, and shows
    exactly one error box when it executes [return]. *)
Definition orderly {A} (c : M A) : Prop :=
  forall st,
    (exists lines, log (snd (c st)) = (log st ++ lines)%list)
    /\ (exists argvs, calls (snd (c st)) = (calls st ++ argvs)%list)
    /\ match fst (c st) with
       | Return =>
           exists title detail,
             boxes (snd (c st)) = (boxes st ++ [showerror title detail])%list
       | _ => boxes (snd (c st)) = boxes st
       end.

(** A statement runs the engine at most [n] times. *)
Definition within {A} (n : nat) (c : M A) : Prop :=
  forall st, (length (calls (snd (c st))) <= length (calls st) + n)%nat.

(** The compress command of both files (lines 194-202 and 171-179). *)
Definition compress_argv (w : world) (gs : string) (level output input : yaml)
  : list yaml :=
  [YStr gs; YStr "-dBATCH"; YStr "-dNOPAUSE"; YStr "-sDEVICE=pdfwrite";
   YStr ("-dPDFSETTINGS=/" ++ py_str w level);
   YStr ("-sOutputFile=" ++ py_str w output);
   input].

(** Merge switched on with an empty list of inputs, in the keys of each
    file. *)
Definition empty_merge_pt : yaml :=
  YMap [("caminhos", YMap [("ghostscript", YStr "/opt/gs/bin/gs")]);
        ("juntar", YMap [("ativado", YBool true); ("arquivos", YList []);
                         ("saida", YStr "merged.pdf")])].

Definition empty_merge_en : yaml :=
  YMap [("paths", YMap [("ghostscript", YStr "/opt/gs/bin/gs")]);
        ("merge", YMap [("enabled", YBool true); ("files", YList []);
                        ("output", YStr "merged.pdf")])].

(** Merge switched on with one input and no output path. *)
Definition no_output_pt : yaml :=
  YMap [("caminhos", YMap [("ghostscript", YStr "/opt/gs/bin/gs")]);
        ("juntar", YMap [("ativado", YBool true); ("arquivos", YList [YStr "a.pdf"])])].

Definition no_output_en : yaml :=
  YMap [("paths", YMap [("ghostscript", YStr "/opt/gs/bin/gs")]);
        ("merge", YMap [("enabled", YBool true); ("files", YList [YStr "a.pdf"])])].

(** Archiving alone is switched on, in the keys of [pdf_tool_gui_logs.py]. *)
Definition archive_only_en : yaml :=
  YMap [("paths", YMap [("ghostscript", YStr "/opt/gs/bin/gs")]);
        ("merge", YMap [("enabled", YBool false)]);
        ("compress", YMap [("enabled", YBool false)]);
        ("pdfa", YMap [("enabled", YBool true); ("output", YStr "archive.pdf")])].

(** The mapping stored under [key] in a configuration, when there is
    one. *)
Definition section_of (config : yaml) (key : string) : option (list (string * yaml)) :=
  match config with
  | YMap m =>
      match lookup key m with
      | Some (YMap s) => Some s
      | _ => None
      end
  | _ => None
  end.

(** Merge switched on with nothing but dictionaries that have no path,
    then compression. *)
Definition pathless_pt : yaml :=
  YMap [("caminhos", YMap [("ghostscript", YStr "/opt/gs/bin/gs")]);
        ("parametros", YMap [("compactacao", YStr "ebook")]);
        ("juntar", YMap [("ativado", YBool true);
                         ("arquivos", YList [YMap [("pagina_inicial", YInt 2)];
                                             YMap [("arquivo", YStr "")]]);
                         ("saida", YStr "merged.pdf")]);
        ("compactar", YMap [("ativado", YBool true); ("saida", YStr "small.pdf")])].

(** A list of items that [pdf_tool_gui_logs.py] does not interpret. *)
Definition raw_items_en : yaml :=
  YMap [("paths", YMap [("ghostscript", YStr "/opt/gs/bin/gs")]);
        ("merge", YMap [("enabled", YBool true);
                        ("files", YList [YMap [("path", YStr "a.pdf")]; YStr "b.pdf"]);
                        ("output", YStr "merged.pdf")])].

(** A desk where the file at [path] is chosen and has the given
    content. *)
Definition desk_of (path : string) (content : loaded) : desk :=
  {| askopenfilename := path; safe_load := fun _ => content |}.

(** The flag that a page bound given as an integer leaves in the
    command. *)
Definition int_flag (flag : string) (n : Z) : list yaml :=
  if (n =? 0)%Z then [] else [YStr (flag ++ str_int n)].

(** A machine like [machine], where [picked] is chosen in the file
    dialog of the merge stage. *)
Definition machine_picking (picked : list string)
    (run : list (list yaml) -> list yaml -> completed) : world :=
  {| os_path_dirname := posix_dirname;
     os_path_join := posix_join;
     os_path_abspath := posix_abspath;
     os_path_exists := fun _ => true;
     askopenfilenames := picked;
     subprocess_run := run;
     repr_container := fun _ => "<container>";
     str_strip := fun s => s;
     datetime_now := "2025-01-01 00:00:00" |}.

(** The commands that the merge loop of [acionador_ghostscript.py] hands
    to the engine when no invocation fails: for each item that is not
    skipped, in order, the command built for the items up to and
    including it. *)
Definition merge_commands (w : world) (gs : string) (saida : yaml)
    (items : list yaml) : list (list yaml) :=
  map (fun i => Acionador.merge_cmd w gs saida (firstn (S i) items)) (invoked w items).

(** What [run_gs] returns for the [j]-th of the commands [cmds], when
    they are run one after the other from the record [history]. *)
Definition answer (w : world) (history : list (list yaml)) (cmds : list (list yaml))
    (j : nat) : bool * string :=
  classify (subprocess_run w (history ++ firstn j cmds) (nth j cmds [])).

(** Running commands one after the other until one fails: the commands
    run, and the error detail of the one that failed. *)
Fixpoint attempt (w : world) (history : list (list yaml)) (cmds : list (list yaml))
    : list (list yaml) * option string :=
  match cmds with
  | [] => ([], None)
  | cmd :: rest =>
      match classify (subprocess_run w history cmd) with
      | (true, _) =>
          let (made, failure) := attempt w (history ++ [cmd]) rest in
          (cmd :: made, failure)
      | (false, err) => ([cmd], Some err)
      end
  end.

(** * Properties *)

(** ** Dictionaries *)

Lemma lookup_assoc_set_same k v m : lookup k (assoc_set k v m) = Some v.
Proof.
  induction m as [|[k' v'] m IH]; simpl.
  - now rewrite String.eqb_refl.
  - destruct (k' =? k) eqn:E; simpl.
    + now rewrite String.eqb_refl.
    + now rewrite E.
Qed.

Lemma lookup_assoc_set_other k k' v m :
  k <> k' -> lookup k' (assoc_set k v m) = lookup k' m.
Proof.
  intros Hk. induction m as [|[k0 v0] m IH]; simpl.
  - destruct (k =? k') eqn:E; [apply String.eqb_eq in E; contradiction | reflexivity].
  - destruct (k0 =? k) eqn:E; simpl.
    + apply String.eqb_eq in E; subst k0.
      destruct (k =? k') eqn:E'; [apply String.eqb_eq in E'; contradiction | reflexivity].
    + destruct (k0 =? k'); [reflexivity | exact IH].
Qed.

Lemma assoc_set_truthy k v m : truthy (YMap (assoc_set k v m)) = true.
Proof.
  destruct m as [|[k' v'] m]; simpl; [reflexivity|].
  destruct (k' =? k); reflexivity.
Qed.

(** ** Equations of the monad *)

Lemma bind_ret {A B} (a : A) (f : A -> M B) st : bind (ret a) f st = f a st.
Proof. reflexivity. Qed.

Lemma bind_log_write {B} text (f : unit -> M B) st :
  bind (log_write text) f st
  = f tt (mkState (log st ++ [text]) (calls st) (boxes st)).
Proof. reflexivity. Qed.

Lemma bind_messagebox {B} b (f : unit -> M B) st :
  bind (messagebox b) f st
  = f tt (mkState (log st) (calls st) (boxes st ++ [b])).
Proof. reflexivity. Qed.

Lemma bind_raise {A B} e (f : A -> M B) st : bind (raise e) f st = (Raise e, st).
Proof. reflexivity. Qed.

Lemma bind_early_return {A B} (f : A -> M B) st :
  bind early_return f st = (Return, st).
Proof. reflexivity. Qed.

Lemma bind_assoc {A B C} (c : M A) (f : A -> M B) (g : B -> M C) st :
  bind (bind c f) g st = bind c (fun a => bind (f a) g) st.
Proof. unfold bind. destruct (c st) as [[a| |e] st']; reflexivity. Qed.

Lemma bind_val {A B} (c : M A) (f : A -> M B) st a st' :
  c st = (Val a, st') -> bind c f st = f a st'.
Proof. intros E. unfold bind. now rewrite E. Qed.

(** ** The process runner *)

Section Runner.

Variable w : world.

Lemma log_each_eq lines st :
  log_each lines st = (Val tt, mkState (log st ++ lines) (calls st) (boxes st)).
Proof.
  revert st. induction lines as [|l ls IH]; intros st; simpl.
  - rewrite app_nil_r. now destruct st.
  - unfold bind; simpl. rewrite IH; simpl. now rewrite <- app_assoc.
Qed.

Lemma run_gs_eq cmd st :
  run_gs w cmd st =
  (Val (classify (subprocess_run w (calls st) cmd)),
   mkState (log st ++ run_gs_log w cmd (subprocess_run w (calls st) cmd))
           (calls st ++ [cmd]) (boxes st)).
Proof.
  unfold run_gs, run_gs_log, outcome_lines, bind at 1 2 3; simpl.
  rewrite log_each_eq; simpl.
  unfold bind at 1, spawn; simpl.
  destruct (subprocess_run w (calls st) cmd) as [rc out err|text]; simpl.
  - unfold bind; simpl. destruct (rc =? 0)%Z; simpl;
      rewrite <- !app_assoc; reflexivity.
  - unfold bind; simpl. rewrite <- !app_assoc; reflexivity.
Qed.

Lemma bind_run_gs {B} cmd (f : bool * string -> M B) st :
  bind (run_gs w cmd) f st =
  f (classify (subprocess_run w (calls st) cmd))
    (mkState (log st ++ run_gs_log w cmd (subprocess_run w (calls st) cmd))
             (calls st ++ [cmd]) (boxes st)).
Proof. unfold bind. now rewrite run_gs_eq. Qed.

End Runner.

(** C9. [run_gs] reports success exactly when the child exits with code
    0 (then with an empty error detail); on any other exit code it
    reports failure with the captured stderr, unstripped, as the detail;
    when [subprocess.run] raises it reports failure with the text of the
    exception. The invocation is recorded once in every case. *)
Theorem run_gs_classification (w : world) (cmd : list yaml) (st : state) :
  match subprocess_run w (calls st) cmd with
  | Exited returncode _ stderr =>
      fst (run_gs w cmd st) =
        Val ((returncode =? 0)%Z, if (returncode =? 0)%Z then "" else stderr)
  | Spawn_error text => fst (run_gs w cmd st) = Val (false, text)
  end
  /\ calls (snd (run_gs w cmd st)) = (calls st ++ [cmd])%list.
Proof.
  rewrite run_gs_eq; simpl. split; [|reflexivity].
  destruct (subprocess_run w (calls st) cmd) as [rc out err|text]; simpl.
  - destruct (rc =? 0)%Z; reflexivity.
  - reflexivity.
Qed.

(** ** The merge command of [acionador_ghostscript.py] *)

Section MergeCommand.

Variable w : world.
Variable gs : string.
Variable saida : yaml.

Lemma fold_left_append {A B} (f : B -> list A) (l : list B) (init : list A) :
  fold_left (fun acc x => acc ++ f x)%list l init = (init ++ flat_map f l)%list.
Proof.
  revert init. induction l as [|x l IH]; intros init; simpl.
  - now rewrite app_nil_r.
  - rewrite IH. now rewrite <- app_assoc.
Qed.

Lemma merge_cmd_eq items :
  Acionador.merge_cmd w gs saida items
  = (Acionador.merge_header w gs saida ++ flat_map (Acionador.item_args w) items)%list.
Proof. unfold Acionador.merge_cmd. apply fold_left_append. Qed.

Lemma merge_cmd_app pre post :
  Acionador.merge_cmd w gs saida (pre ++ post)
  = (Acionador.merge_cmd w gs saida pre ++ flat_map (Acionador.item_args w) post)%list.
Proof. rewrite !merge_cmd_eq, flat_map_app. now rewrite app_assoc. Qed.

Lemma merge_cmd_snoc pre item :
  Acionador.merge_cmd w gs saida (pre ++ [item])
  = (Acionador.merge_cmd w gs saida pre ++ Acionador.item_args w item)%list.
Proof. rewrite merge_cmd_app; simpl. now rewrite app_nil_r. Qed.

Lemma page_flag_bound flag page :
  (forall n, page = Some n -> (0 < n)%Z) ->
  Acionador.page_flag w flag (page_value page) = bound flag page.
Proof.
  intros Hpos. destruct page as [n|]; simpl; [|reflexivity].
  unfold Acionador.page_flag; simpl.
  specialize (Hpos n eq_refl).
  destruct (n =? 0)%Z eqn:E; [apply Z.eqb_eq in E; lia | reflexivity].
Qed.

End MergeCommand.

(** ** The merge loop of [acionador_ghostscript.py] *)

Section MergeLoop.

Variable w : world.

Lemma filter_shift (f : yaml -> bool) item rest (l : list nat) :
  filter (fun i => f (nth i (item :: rest) YNull)) (map S l)
  = map S (filter (fun i => f (nth i rest YNull)) l).
Proof.
  induction l as [|i l IH]; cbn [filter map]; [reflexivity|].
  rewrite IH. cbn [nth]. destruct (f (nth i rest YNull)); reflexivity.
Qed.

Lemma invoked_cons item rest :
  invoked w (item :: rest)
  = ((if skipped w item then [] else [0%nat]) ++ map S (invoked w rest))%list.
Proof.
  unfold invoked. cbn [length seq]. rewrite <- seq_shift. cbn [filter].
  rewrite (filter_shift (fun x => negb (skipped w x))).
  change (nth 0 (item :: rest) YNull) with item.
  destruct (skipped w item); reflexivity.
Qed.

Lemma invoked_none_skipped items :
  (forall item, In item items -> skipped w item = false) ->
  length (invoked w items) = length items.
Proof.
  induction items as [|item rest IH]; intros H; [reflexivity|].
  rewrite invoked_cons, length_app, length_map, IH.
  - rewrite (H item (or_introl eq_refl)). reflexivity.
  - intros i Hi. apply H. now right.
Qed.

Variable gs : string.
Variable saida : yaml.

Hypothesis engine_ok : always_exits_zero w.

Local Arguments run_gs : simpl never.
Local Arguments String.append : simpl never.

(** One turn of the loop. *)
Lemma merge_loop_cons item rest cmd messages input :
  Acionador.merge_loop w saida (item :: rest) cmd messages input
  = let run (cmd : list yaml) :=
      '(ok, err) <- run_gs w cmd ;;
      if negb ok then
        messagebox (showerror "Erro na junção " err) ;; early_return
      else
        Acionador.merge_loop w saida rest cmd
          (append messages ("Junção OK → " ++ py_str w saida)) (Some saida) in
    match Acionador.item_step w item with
    | Acionador.Append args => run (cmd ++ args)%list
    | Acionador.Continue => Acionador.merge_loop w saida rest cmd messages input
    | Acionador.Unrecognized =>
        log_write ("Entrada não reconhecida em 'arquivos': " ++ py_str w item) ;;
        run cmd
    end.
Proof. reflexivity. Qed.

(** The loop, started after the items [done] with the command built
    for them. *)
Lemma merge_loop_ok items : forall done messages input st,
  let r := Acionador.merge_loop w saida items (Acionador.merge_cmd w gs saida done)
             messages input st in
  fst r = Val ((messages
                ++ repeat ("Junção OK → " ++ py_str w saida)%string
                     (length (invoked w items)))%list,
               match invoked w items with [] => input | _ => Some saida end)
  /\ calls (snd r)
     = (calls st
        ++ map (fun i => Acionador.merge_cmd w gs saida (done ++ firstn (S i) items))
             (invoked w items))%list
  /\ boxes (snd r) = boxes st.
Proof.
  induction items as [|item rest IH]; intros done messages input st.
  - simpl. rewrite !app_nil_r. auto.
  - assert (Hmap : forall l : list nat,
      map (fun i => Acionador.merge_cmd w gs saida ((done ++ [item]) ++ firstn (S i) rest)) l
      = map (fun i => Acionador.merge_cmd w gs saida (done ++ firstn (S i) (item :: rest)))
          (map S l)).
    { intros l. rewrite map_map. apply map_ext. intros i.
      rewrite <- app_assoc. reflexivity. }
    assert (Hsnoc := merge_cmd_snoc w gs saida done item).
    unfold Acionador.item_args in Hsnoc.
    rewrite invoked_cons. unfold skipped at 1 2 3.
    cbv zeta. rewrite merge_loop_cons. cbv zeta.
    destruct (Acionador.item_step w item) as [args| |] eqn:Estep.
    + (* the item appends to cmd, then run_gs *)
      rewrite bind_run_gs. rewrite <- Hsnoc.
      destruct (engine_ok (calls st) (Acionador.merge_cmd w gs saida (done ++ [item])))
        as (out & err & E).
      rewrite E. change (classify (Exited 0 out err)) with (true, "").
      cbv beta iota. cbn [negb].
      match goal with
      | |- context [Acionador.merge_loop w saida rest _ ?m ?i ?s] =>
          destruct (IH (done ++ [item])%list m i s) as (IH1 & IH2 & IH3)
      end.
      cbv zeta in IH1, IH2, IH3. rewrite IH1, IH2, IH3. cbn [calls boxes].
      repeat split.
      * unfold append. rewrite <- app_assoc. cbn [app length repeat].
        rewrite length_map. destruct (invoked w rest); reflexivity.
      * rewrite <- app_assoc. cbn [app map]. rewrite Hmap. reflexivity.
    + (* continue *)
      rewrite app_nil_r in Hsnoc. rewrite <- Hsnoc.
      destruct (IH (done ++ [item])%list messages input st) as (IH1 & IH2 & IH3).
      cbv zeta in IH1, IH2, IH3. rewrite IH1, IH2, IH3. cbn [app].
      repeat split.
      * rewrite length_map. destruct (invoked w rest); reflexivity.
      * rewrite Hmap. reflexivity.
    + (* warning, then run_gs on the unchanged cmd *)
      rewrite app_nil_r in Hsnoc. rewrite <- Hsnoc.
      rewrite bind_log_write, bind_run_gs. cbn [calls log boxes].
      destruct (engine_ok (calls st) (Acionador.merge_cmd w gs saida (done ++ [item])))
        as (out & err & E).
      rewrite E. change (classify (Exited 0 out err)) with (true, "").
      cbv beta iota. cbn [negb].
      match goal with
      | |- context [Acionador.merge_loop w saida rest _ ?m ?i ?s] =>
          destruct (IH (done ++ [item])%list m i s) as (IH1 & IH2 & IH3)
      end.
      cbv zeta in IH1, IH2, IH3. rewrite IH1, IH2, IH3. cbn [calls boxes].
      repeat split.
      * unfold append. rewrite <- app_assoc. cbn [app length repeat].
        rewrite length_map. destruct (invoked w rest); reflexivity.
      * rewrite <- app_assoc. cbn [app map]. rewrite Hmap. reflexivity.
Qed.

End MergeLoop.

Section MergeLoopCalls.

Variable w : world.
Variable gs : string.
Variable saida : yaml.

Local Arguments run_gs : simpl never.
Local Arguments String.append : simpl never.

(** Whatever the engine answers, every invocation made by the loop is
    on the command built for the items up to and including the current
    one: the invocations are those of [invoked], cut at the first
    failure. *)
Lemma merge_loop_calls items : forall done messages input st,
  exists n,
    calls (snd (Acionador.merge_loop w saida items (Acionador.merge_cmd w gs saida done)
                  messages input st))
    = (calls st
       ++ map (fun i => Acionador.merge_cmd w gs saida (done ++ firstn (S i) items))
            (firstn n (invoked w items)))%list.
Proof.
  induction items as [|item rest IH]; intros done messages input st.
  - exists 0%nat. simpl. now rewrite app_nil_r.
  - assert (Hmap : forall l : list nat,
      map (fun i => Acionador.merge_cmd w gs saida ((done ++ [item]) ++ firstn (S i) rest)) l
      = map (fun i => Acionador.merge_cmd w gs saida (done ++ firstn (S i) (item :: rest)))
          (map S l)).
    { intros l. rewrite map_map. apply map_ext. intros i.
      rewrite <- app_assoc. reflexivity. }
    assert (Hsnoc := merge_cmd_snoc w gs saida done item).
    unfold Acionador.item_args in Hsnoc.
    rewrite invoked_cons. unfold skipped.
    rewrite merge_loop_cons. cbv zeta.
    destruct (Acionador.item_step w item) as [args| |] eqn:Estep.
    + rewrite bind_run_gs, <- Hsnoc.
      destruct (classify _) as [[|] err]; cbn [negb].
      * match goal with
        | |- context [Acionador.merge_loop w saida rest _ ?m ?i ?s] =>
            destruct (IH (done ++ [item])%list m i s) as (n & E)
        end.
        exists (S n). rewrite E. cbn [calls app firstn map].
        rewrite <- app_assoc, firstn_map, Hmap. reflexivity.
      * exists 1%nat. reflexivity.
    + rewrite app_nil_r in Hsnoc. rewrite <- Hsnoc.
      destruct (IH (done ++ [item])%list messages input st) as (n & E).
      exists n. rewrite E. cbn [app]. rewrite firstn_map, Hmap. reflexivity.
    + rewrite app_nil_r in Hsnoc. rewrite <- Hsnoc.
      rewrite bind_log_write, bind_run_gs. cbn [calls log boxes].
      destruct (classify _) as [[|] err]; cbn [negb].
      * match goal with
        | |- context [Acionador.merge_loop w saida rest _ ?m ?i ?s] =>
            destruct (IH (done ++ [item])%list m i s) as (n & E)
        end.
        exists (S n). rewrite E. cbn [calls app firstn map].
        rewrite <- app_assoc, firstn_map, Hmap. reflexivity.
      * exists 1%nat. reflexivity.
Qed.

End MergeLoopCalls.

Lemma exits_zero_always installed out :
  always_exits_zero (machine installed (exits 0 out)).
Proof. intros history cmd. exists "", out. reflexivity. Qed.

Lemma invoked_middle w pre item post :
  skipped w item = false -> In (length pre) (invoked w (pre ++ item :: post)).
Proof.
  intros H. unfold invoked. apply filter_In. split.
  - apply in_seq. rewrite length_app. cbn [length]. lia.
  - rewrite nth_middle, H. reflexivity.
Qed.

Lemma firstn_before {A} (pre : list A) item post i :
  (i < length pre)%nat -> firstn (S i) (pre ++ item :: post) = firstn (S i) pre.
Proof.
  intros Hi. rewrite firstn_app.
  replace (S i - length pre)%nat with 0%nat by lia. cbn [firstn]. apply app_nil_r.
Qed.

Lemma firstn_from {A} (pre : list A) item post i :
  firstn (S (length pre + i)) (pre ++ item :: post) = (pre ++ item :: firstn i post)%list.
Proof.
  rewrite firstn_app.
  replace (S (length pre + i) - length pre)%nat with (S i) by lia.
  rewrite firstn_all2 by lia. reflexivity.
Qed.

(** C1. The merge loop of [acionador_ghostscript.py], with an engine
    that exits with code 0, hands to the engine the command built for
    the items up to and including each item it does not skip. A
    dictionary item with a path and positive page bounds is not skipped,
    and in the command of its invocation and of every later one it
    contributes its [-dFirstPage=]/[-dLastPage=] flags (those it
    carries, in that order) directly followed by its path: what comes
    before is the command of the earlier items alone, which the item
    does not alter, and what comes after is determined by the later
    items alone, a bare path contributing nothing but itself. So no
    bound of one item stands before the path of another. *)
Theorem merge_run_page_flags (w : world) (gs : string) (saida : yaml)
    (pre post : list yaml) (d : list (string * yaml))
    (path : string) (first last : option Z) (st : state) :
  always_exits_zero w ->
  dict_get d "arquivo" YNull = YStr path ->
  path <> "" ->
  dict_get d "pagina_inicial" YNull = page_value first ->
  dict_get d "pagina_final" YNull = page_value last ->
  (forall n, first = Some n -> (0 < n)%Z) ->
  (forall n, last = Some n -> (0 < n)%Z) ->
  let items := (pre ++ YMap d :: post)%list in
  let r := Acionador.merge_run w gs (Some (YList items)) (Some saida) st in
  let command (i : nat) := Acionador.merge_cmd w gs saida (firstn (S i) items) in
  calls (snd r) = (calls st ++ map command (invoked w items))%list
  /\ In (length pre) (invoked w items)
  /\ (forall i, (i < length pre)%nat ->
        command i = Acionador.merge_cmd w gs saida (firstn (S i) pre))
  /\ (forall i,
        command (length pre + i)
        = (Acionador.merge_cmd w gs saida pre
           ++ bound "-dFirstPage=" first ++ bound "-dLastPage=" last ++ [YStr path]
           ++ flat_map (Acionador.item_args w) (firstn i post))%list)
  /\ (forall s, Acionador.item_args w (YStr s) = [YStr s]).
Proof.
  intros Hok Hpath Hne Hfirst Hlast Hpos1 Hpos2 items r command.
  assert (Hstep : Acionador.item_step w (YMap d)
                  = Acionador.Append (bound "-dFirstPage=" first ++ bound "-dLastPage=" last
                                      ++ [YStr path])%list).
  { unfold Acionador.item_step. rewrite Hpath, Hfirst, Hlast; simpl.
    destruct (path =? "") eqn:E; [apply String.eqb_eq in E; contradiction|]; simpl.
    now rewrite !page_flag_bound by assumption. }
  split; [|split; [|split; [|split]]].
  - destruct (merge_loop_ok gs saida Hok items [] [] None st) as (_ & H & _).
    exact H.
  - apply invoked_middle. unfold skipped. now rewrite Hstep.
  - intros i Hi. subst command items. cbv beta. now rewrite firstn_before.
  - intros i. subst command items. cbv beta.
    rewrite firstn_from.
    rewrite merge_cmd_app. cbn [flat_map]. unfold Acionador.item_args at 1.
    rewrite Hstep. now rewrite <- !app_assoc.
  - reflexivity.
Qed.

(** An instance: the bare path cover.pdf, the item [{arquivo: a.pdf,
    pagina_inicial: 2, pagina_final: 4}], then the bare path b.pdf. *)
Lemma merge_run_page_flags_witness :
  let w := machine true (exits 0 "") in
  let saida := YStr "merged.pdf" in
  let pre := [YStr "cover.pdf"] in
  let post := [YStr "b.pdf"] in
  let items := (pre ++ YMap [("arquivo", YStr "a.pdf"); ("pagina_inicial", YInt 2);
                             ("pagina_final", YInt 4)] :: post)%list in
  let r := Acionador.merge_run w "gs" (Some (YList items)) (Some saida) start in
  let command (i : nat) := Acionador.merge_cmd w "gs" saida (firstn (S i) items) in
  calls (snd r) = (calls start ++ map command (invoked w items))%list
  /\ In (length pre) (invoked w items)
  /\ (forall i, (i < length pre)%nat ->
        command i = Acionador.merge_cmd w "gs" saida (firstn (S i) pre))
  /\ (forall i,
        command (length pre + i)
        = (Acionador.merge_cmd w "gs" saida pre
           ++ bound "-dFirstPage=" (Some 2%Z) ++ bound "-dLastPage=" (Some 4%Z)
           ++ [YStr "a.pdf"]
           ++ flat_map (Acionador.item_args w) (firstn i post))%list)
  /\ (forall s, Acionador.item_args w (YStr s) = [YStr s]).
Proof.
  apply (@merge_run_page_flags (machine true (exits 0 "")) "gs" (YStr "merged.pdf")
           [YStr "cover.pdf"] [YStr "b.pdf"] _ "a.pdf" (Some 2%Z) (Some 4%Z) start).
  - intros history cmd. exists "", "". reflexivity.
  - reflexivity.
  - discriminate.
  - reflexivity.
  - reflexivity.
  - intros n H; inversion H; lia.
  - intros n H; inversion H; lia.
Defined.

Section MergeLoopAttempt.

Variable w : world.
Variable gs : string.
Variable saida : yaml.

Local Arguments run_gs : simpl never.
Local Arguments String.append : simpl never.

(** The loop runs the commands of the items it does not skip, one after
    the other, until one fails. *)
Lemma merge_loop_attempt items : forall done messages input st,
  let cmds := map (fun i => Acionador.merge_cmd w gs saida (done ++ firstn (S i) items))
                (invoked w items) in
  let r := Acionador.merge_loop w saida items (Acionador.merge_cmd w gs saida done)
             messages input st in
  calls (snd r) = (calls st ++ fst (attempt w (calls st) cmds))%list
  /\ match snd (attempt w (calls st) cmds) with
     | None =>
         fst r = Val ((messages
                       ++ repeat ("Junção OK → " ++ py_str w saida)%string (length cmds))%list,
                      match cmds with [] => input | _ => Some saida end)
         /\ boxes (snd r) = boxes st
     | Some err =>
         fst r = Return
         /\ boxes (snd r) = (boxes st ++ [showerror "Erro na junção " err])%list
     end.
Proof.
  induction items as [|item rest IH]; intros done messages input st.
  - simpl. rewrite !app_nil_r. auto.
  - assert (Hmap : forall l : list nat,
      map (fun i => Acionador.merge_cmd w gs saida ((done ++ [item]) ++ firstn (S i) rest)) l
      = map (fun i => Acionador.merge_cmd w gs saida (done ++ firstn (S i) (item :: rest)))
          (map S l)).
    { intros l. rewrite map_map. apply map_ext. intros i.
      rewrite <- app_assoc. reflexivity. }
    assert (Hsnoc := merge_cmd_snoc w gs saida done item).
    unfold Acionador.item_args in Hsnoc.
    rewrite invoked_cons. unfold skipped.
    cbv zeta. rewrite merge_loop_cons. cbv zeta.
    specialize (IH (done ++ [item])%list). cbv zeta in IH. rewrite Hmap in IH.
    destruct (Acionador.item_step w item) as [args| |] eqn:Estep.
    + rewrite bind_run_gs. rewrite <- Hsnoc.
      cbn [app map firstn attempt].
      destruct (classify _) as [[|] err]; cbn [negb].
      * match goal with
        | |- context [Acionador.merge_loop w saida rest _ ?m ?i ?s] =>
            destruct (IH m i s) as (IH1 & IH2)
        end.
        cbn [calls boxes] in IH1, IH2. rewrite IH1.
        destruct (attempt w _ _) as [made failure]. cbn [fst snd] in *.
        split; [now rewrite <- app_assoc|].
        destruct failure as [e|]; [exact IH2|].
        destruct IH2 as (IH2 & IH3). rewrite IH2. split; [|exact IH3].
        unfold append. rewrite <- app_assoc. cbn [app length repeat].
        destruct (map _ _); reflexivity.
      * cbn [fst snd calls boxes]. repeat split.
    + rewrite app_nil_r in Hsnoc. rewrite <- Hsnoc. cbn [app]. apply IH.
    + rewrite app_nil_r in Hsnoc. rewrite <- Hsnoc.
      rewrite bind_log_write, bind_run_gs. cbn [calls log boxes].
      cbn [app map firstn attempt].
      destruct (classify _) as [[|] err]; cbn [negb].
      * match goal with
        | |- context [Acionador.merge_loop w saida rest _ ?m ?i ?s] =>
            destruct (IH m i s) as (IH1 & IH2)
        end.
        cbn [calls boxes] in IH1, IH2. rewrite IH1.
        destruct (attempt w _ _) as [made failure]. cbn [fst snd] in *.
        split; [now rewrite <- app_assoc|].
        destruct failure as [e|]; [exact IH2|].
        destruct IH2 as (IH2 & IH3). rewrite IH2. split; [|exact IH3].
        unfold append. rewrite <- app_assoc. cbn [app length repeat].
        destruct (map _ _); reflexivity.
      * cbn [fst snd calls boxes]. repeat split.
Qed.

Lemma answer_cons history cmd cmds j :
  answer w history (cmd :: cmds) (S j) = answer w (history ++ [cmd]) cmds j.
Proof. unfold answer. cbn [firstn nth]. now rewrite <- app_assoc. Qed.

Lemma answer_first history cmd cmds :
  answer w history (cmd :: cmds) 0 = classify (subprocess_run w history cmd).
Proof. unfold answer. cbn [firstn nth]. now rewrite app_nil_r. Qed.

Lemma attempt_ok cmds : forall history,
  (forall j, (j < length cmds)%nat -> fst (answer w history cmds j) = true) ->
  attempt w history cmds = (cmds, None).
Proof.
  induction cmds as [|cmd cmds IH]; intros history Hok; [reflexivity|].
  cbn [attempt].
  assert (H0 := Hok 0%nat). rewrite answer_first in H0.
  destruct (classify _) as [[|] err].
  - rewrite IH; [reflexivity|].
    intros j Hj. rewrite <- answer_cons. apply Hok. cbn [length]. lia.
  - cbn [length fst] in H0. specialize (H0 ltac:(lia)). discriminate.
Qed.

Lemma attempt_fails cmds : forall history k err,
  (k < length cmds)%nat ->
  (forall j, (j < k)%nat -> fst (answer w history cmds j) = true) ->
  answer w history cmds k = (false, err) ->
  attempt w history cmds = (firstn (S k) cmds, Some err).
Proof.
  induction cmds as [|cmd cmds IH]; intros history k err Hk Hok Hfail;
    [cbn [length] in Hk; lia|].
  cbn [attempt]. destruct k as [|k].
  - rewrite answer_first in Hfail. rewrite Hfail. reflexivity.
  - assert (H0 := Hok 0%nat ltac:(lia)). rewrite answer_first in H0.
    destruct (classify _) as [[|] e]; [|discriminate].
    rewrite (IH (history ++ [cmd])%list k err).
    + reflexivity.
    + cbn [length] in Hk. lia.
    + intros j Hj. rewrite <- answer_cons. apply Hok. lia.
    + now rewrite <- answer_cons.
Qed.

End MergeLoopAttempt.

(** C6 (amended). The merge loop of [acionador_ghostscript.py] runs the
    engine once for every item at which it does not [continue] (every
    item but a dictionary without a path), in order, each time on the
    command built for the items up to and including that one. As long as
    the invocations succeed it appends one success message per
    invocation; when no item is skipped that is one invocation and one
    message per item. When an invocation fails the run ends at once:
    that invocation is the last, the box "Erro na junção " shows its
    error detail and [process] returns. *)
Theorem merge_run_invocations (w : world) (gs : string) (saida : yaml)
    (items : list yaml) (st : state) :
  let cmds := merge_commands w gs saida items in
  let r := Acionador.merge_run w gs (Some (YList items)) (Some saida) st in
  ((forall j, (j < length cmds)%nat -> fst (answer w (calls st) cmds j) = true) ->
   calls (snd r) = (calls st ++ cmds)%list
   /\ fst r = Val (repeat ("Junção OK → " ++ py_str w saida) (length (invoked w items)),
                   match invoked w items with [] => None | _ => Some saida end)
   /\ boxes (snd r) = boxes st)
  /\ (forall k err,
        (k < length cmds)%nat ->
        (forall j, (j < k)%nat -> fst (answer w (calls st) cmds j) = true) ->
        answer w (calls st) cmds k = (false, err) ->
        calls (snd r) = (calls st ++ firstn (S k) cmds)%list
        /\ fst r = Return
        /\ boxes (snd r) = (boxes st ++ [showerror "Erro na junção " err])%list)
  /\ length cmds = length (invoked w items)
  /\ ((forall item, In item items -> skipped w item = false) ->
      length (invoked w items) = length items).
Proof.
  intros cmds r.
  destruct (merge_loop_attempt w gs saida items [] [] None st) as (H1 & H2).
  cbv zeta in H1, H2. cbn [app] in H1, H2.
  change (map _ (invoked w items)) with cmds in H1, H2.
  change (Acionador.merge_loop w saida items (Acionador.merge_cmd w gs saida []) [] None st)
    with r in H1, H2.
  assert (Hlen : length cmds = length (invoked w items)) by apply length_map.
  split; [|split; [|split]].
  - intros Hok. rewrite (attempt_ok w cmds (calls st) Hok) in H1, H2.
    cbn [fst snd] in H1, H2. destruct H2 as (H2 & H3).
    repeat split; [exact H1| |exact H3].
    rewrite H2, Hlen. f_equal. f_equal.
    subst cmds. unfold merge_commands. destruct (invoked w items); reflexivity.
  - intros k err Hk Hok Hfail.
    rewrite (attempt_fails w cmds (calls st) Hk Hok Hfail) in H1, H2.
    cbn [fst snd] in H1, H2. destruct H2 as (H2 & H3). auto.
  - exact Hlen.
  - apply invoked_none_skipped.
Qed.

(** Two instances, on the list of a dictionary with a page range, a
    dictionary without a path and a bare path: with an engine that exits
    with code 0 the engine is run twice, the second item being skipped;
    with an engine that exits with code 1 the first invocation is the
    only one. *)
Lemma merge_run_invocations_witness :
  let items := [YMap [("arquivo", YStr "a.pdf"); ("pagina_inicial", YInt 2)];
                YMap [("pagina_final", YInt 7)];
                YStr "b.pdf"] in
  let saida := YStr "merged.pdf" in
  (let w := machine true (exits 0 "") in
   let r := Acionador.merge_run w "gs" (Some (YList items)) (Some saida) start in
   calls (snd r)
   = [ [YStr "gs"; YStr "-dBATCH"; YStr "-dNOPAUSE"; YStr "-sDEVICE=pdfwrite";
        YStr "-sOutputFile=merged.pdf"; YStr "-dFirstPage=2"; YStr "a.pdf"];
       [YStr "gs"; YStr "-dBATCH"; YStr "-dNOPAUSE"; YStr "-sDEVICE=pdfwrite";
        YStr "-sOutputFile=merged.pdf"; YStr "-dFirstPage=2"; YStr "a.pdf"; YStr "b.pdf"] ]
   /\ fst r = Val (["Junção OK → merged.pdf"; "Junção OK → merged.pdf"], Some saida)
   /\ boxes (snd r) = [])
  /\ (let w := machine true (exits 1 "no such file") in
      let r := Acionador.merge_run w "gs" (Some (YList items)) (Some saida) start in
      calls (snd r)
      = [ [YStr "gs"; YStr "-dBATCH"; YStr "-dNOPAUSE"; YStr "-sDEVICE=pdfwrite";
           YStr "-sOutputFile=merged.pdf"; YStr "-dFirstPage=2"; YStr "a.pdf"] ]
      /\ fst r = Return
      /\ boxes (snd r) = [showerror "Erro na junção " "no such file"]).
Proof.
  intros items saida. split.
  - refine (proj1 (@merge_run_invocations (machine true (exits 0 "")) "gs" saida items start) _).
    intros j Hj. reflexivity.
  - refine (proj1 (proj2 (@merge_run_invocations (machine true (exits 1 "no such file"))
                            "gs" saida items start)) 0%nat "no such file" _ _ _).
    + vm_compute. lia.
    + intros j Hj. lia.
    + reflexivity.
Defined.


(** One invocation per item does not hold on a list whose only item is
    a dictionary without ["arquivo"]: the list has one item and the
    engine is not run. *)
Lemma merge_run_skips_pathless_item :
  length (calls (snd (Acionador.merge_run (machine true (exits 0 "")) "gs"
                        (Some (YList [YMap [("pagina_inicial", YInt 2)]]))
                        (Some (YStr "merged.pdf")) start)))
  <> length [YMap [("pagina_inicial", YInt 2)]].
Proof. vm_compute. discriminate. Qed.

(** ** Reading the configuration *)

Lemma engine_path_truthy k_paths k_gs config g :
  engine_path k_paths k_gs config = Some g -> truthy config = true.
Proof.
  destruct config as [| | | | |m]; try discriminate.
  destruct m; [discriminate | reflexivity].
Qed.

Lemma flag_map m stage key b :
  flag (YMap m) stage key = Some b ->
  exists s, dict_get m stage (YMap []) = YMap s
            /\ truthy (dict_get s key (YBool false)) = b.
Proof.
  unfold flag. destruct (dict_get m stage (YMap [])) as [| | | | |s]; try discriminate.
  intros H; injection H as H. now exists s.
Qed.

Lemma engine_path_map k_paths k_gs config g :
  engine_path k_paths k_gs config = Some g -> exists m, config = YMap m.
Proof. destruct config as [| | | | |m]; try discriminate. now exists m. Qed.

(** Evaluate the test of a stage whose flag is known. *)
Ltac stage_flag H :=
  let s := fresh "s" in
  let Hs := fresh "Hs" in
  let Hb := fresh "Hb" in
  destruct (flag_map _ _ _ H) as (s & Hs & Hb);
  cbn [py_get]; rewrite bind_ret, Hs; cbn [py_get]; rewrite bind_ret, Hb.

Section Preflight.

Variable w : world.

Local Arguments String.append : simpl never.

Lemma preflight_eq k_paths k_gs config gs st :
  engine_path k_paths k_gs config = Some gs ->
  preflight w k_paths k_gs config st
  = if os_path_exists w (pdfa_def_path w gs) then
      (Val (gs, pdfa_def_path w gs),
       mkState (log st ++ header_lines w gs) (calls st) (boxes st))
    else
      (Return,
       mkState (log st ++ header_lines w gs ++ [not_found w gs]) (calls st)
               (boxes st ++ [showerror "Erro" (not_found w gs)])).
Proof.
  unfold engine_path, preflight.
  destruct config as [| | | | |m]; try discriminate.
  rewrite !bind_log_write. cbn [subscript].
  destruct (lookup k_paths m) as [[| | | | |paths]|]; try discriminate.
  rewrite bind_ret. cbn [subscript].
  destruct (lookup k_gs paths) as [[| | |g| |]|]; try discriminate.
  intros H; injection H as ->.
  rewrite bind_ret, !bind_log_write. cbn [py_str log calls boxes].
  fold (pdfa_def_path w gs). fold (not_found w gs).
  destruct (os_path_exists w (pdfa_def_path w gs)); cbn [negb].
  - unfold ret, header_lines. rewrite <- !app_assoc. reflexivity.
  - rewrite bind_log_write, bind_messagebox. unfold early_return, header_lines.
    cbn [log calls boxes]. rewrite <- !app_assoc. reflexivity.
Qed.

End Preflight.

(** ** Whole runs *)

Section Runs.

Variable w : world.

Local Arguments String.append : simpl never.
Local Arguments run_gs : simpl never.

Lemma process_pt_eq config gs :
  engine_path "caminhos" "ghostscript" config = Some gs ->
  Acionador.process w config start
  = if os_path_exists w (pdfa_def_path w gs) then
      (messages <- Acionador.stages w config gs (pdfa_def_path w gs) ;;
       log_write (nl ++ "=== Process Finished ===" ++ nl) ;;
       messagebox (showinfo "Concluído" (String.concat nl messages)) ;;
       ret messages)
        (mkState (header_lines w gs) [] [])
    else
      (Return,
       mkState (header_lines w gs ++ [not_found w gs]) []
               [showerror "Erro" (not_found w gs)]).
Proof.
  intros H. unfold Acionador.process.
  rewrite (engine_path_truthy _ _ _ H). cbn [negb].
  unfold bind at 1. rewrite (preflight_eq w _ _ _ start H).
  destruct (os_path_exists w (pdfa_def_path w gs)); reflexivity.
Qed.

Lemma process_en_eq config gs :
  engine_path "paths" "ghostscript" config = Some gs ->
  GuiLogs.process w config start
  = if os_path_exists w (pdfa_def_path w gs) then
      (messages <- GuiLogs.stages w config gs (pdfa_def_path w gs) ;;
       log_write (nl ++ "=== Process Finished ===" ++ nl) ;;
       messagebox (showinfo "Concluído" (String.concat nl messages)) ;;
       ret messages)
        (mkState (header_lines w gs) [] [])
    else
      (Return,
       mkState (header_lines w gs ++ [not_found w gs]) []
               [showerror "Erro" (not_found w gs)]).
Proof.
  intros H. unfold GuiLogs.process.
  rewrite (engine_path_truthy _ _ _ H). cbn [negb].
  unfold bind at 1. rewrite (preflight_eq w _ _ _ start H).
  destruct (os_path_exists w (pdfa_def_path w gs)); reflexivity.
Qed.

(** The merge block of [acionador_ghostscript.py] when its test is
    false: nothing is assigned. *)
Lemma merge_block_disabled m st :
  flag (YMap m) "juntar" "ativado" = Some false ->
  Acionador.merge_block w (YMap m) st = (Val (None, None), st).
Proof.
  intros H. unfold Acionador.merge_block. stage_flag H. reflexivity.
Qed.

End Runs.

(** C5. In [acionador_ghostscript.py], when the pre-flight check passes
    and the merge test is false, the merge block assigns neither
    [merge_files] nor [saida_juncao]; the run then raises
    [UnboundLocalError] where the merge command is built from
    [saida_juncao], with the engine never run and no message box shown.
    The current-artifact variable is unassigned as well: a compress
    stage that is enabled and reads it raises the same kind of error. *)
Theorem merge_disabled_unbound_locals (w : world) (config : yaml) (gs : string) :
  engine_path "caminhos" "ghostscript" config = Some gs ->
  os_path_exists w (pdfa_def_path w gs) = true ->
  flag config "juntar" "ativado" = Some false ->
  let st := mkState (header_lines w gs) [] [] in
  Acionador.merge_block w config st = (Val (None, None), st)
  /\ Acionador.process w config start = (Raise (UnboundLocalError "saida_juncao"), st)
  /\ (forall messages st',
        flag config "compactar" "ativado" = Some true ->
        fst (Acionador.compress w config gs messages None st')
        = Raise (UnboundLocalError "input_for_next_step")).
Proof.
  intros Hgs Hdef Hoff st.
  destruct (engine_path_map _ _ _ Hgs) as (m & ->).
  repeat split.
  - now apply merge_block_disabled.
  - rewrite (process_pt_eq w _ Hgs), Hdef.
    unfold Acionador.stages, Acionador.merge, bind.
    rewrite (merge_block_disabled w m _ Hoff). reflexivity.
  - intros messages st' Hon. unfold Acionador.compress.
    stage_flag Hon. reflexivity.
Qed.

Lemma merge_disabled_unbound_locals_witness :
  let w := machine true (exits 0 "") in
  let st := mkState (header_lines w "/opt/gs/bin/gs") [] [] in
  Acionador.merge_block w compress_only_pt st = (Val (None, None), st)
  /\ Acionador.process w compress_only_pt start
     = (Raise (UnboundLocalError "saida_juncao"), st)
  /\ (forall messages st',
        flag compress_only_pt "compactar" "ativado" = Some true ->
        fst (Acionador.compress w compress_only_pt "/opt/gs/bin/gs" messages None st')
        = Raise (UnboundLocalError "input_for_next_step")).
Proof.
  exact (@merge_disabled_unbound_locals (machine true (exits 0 "")) compress_only_pt
           "/opt/gs/bin/gs" eq_refl eq_refl eq_refl).
Defined.

(** C7. When PDFA_def.ps is not found where [process] looks for it, the
    run of either file stops in the pre-flight check: the error box is
    the only box shown, the log ends with the not-found message, and
    the engine is never run. *)
Theorem missing_definition_stops_run (w : world) (config_pt config_en : yaml)
    (gs_pt gs_en : string) :
  engine_path "caminhos" "ghostscript" config_pt = Some gs_pt ->
  os_path_exists w (pdfa_def_path w gs_pt) = false ->
  engine_path "paths" "ghostscript" config_en = Some gs_en ->
  os_path_exists w (pdfa_def_path w gs_en) = false ->
  Acionador.process w config_pt start
  = (Return,
     mkState (header_lines w gs_pt ++ [not_found w gs_pt]) []
             [showerror "Erro" (not_found w gs_pt)])
  /\ GuiLogs.process w config_en start
     = (Return,
        mkState (header_lines w gs_en ++ [not_found w gs_en]) []
                [showerror "Erro" (not_found w gs_en)]).
Proof.
  intros Hpt Hmiss_pt Hen Hmiss_en. split.
  - now rewrite (process_pt_eq w _ Hpt), Hmiss_pt.
  - now rewrite (process_en_eq w _ Hen), Hmiss_en.
Qed.

(** An instance: every stage is switched on, PDFA_def.ps is missing. *)
Lemma missing_definition_stops_run_witness :
  let w := machine false (exits 0 "") in
  let halted :=
    (@Return (list string),
     mkState (header_lines w "/opt/gs/bin/gs" ++ [not_found w "/opt/gs/bin/gs"]) []
             [showerror "Erro" (not_found w "/opt/gs/bin/gs")]) in
  Acionador.process w all_enabled_pt start = halted
  /\ GuiLogs.process w all_enabled_en start = halted.
Proof.
  exact (@missing_definition_stops_run (machine false (exits 0 ""))
           all_enabled_pt all_enabled_en "/opt/gs/bin/gs" "/opt/gs/bin/gs"
           eq_refl eq_refl eq_refl eq_refl).
Defined.

(** ** Stages that are switched off *)

Section Disabled.

Variable w : world.
Variable m : list (string * yaml).
Variable gs : string.

Local Arguments String.append : simpl never.

Lemma compress_pt_disabled messages input st :
  flag (YMap m) "compactar" "ativado" = Some false ->
  Acionador.compress w (YMap m) gs messages input st = (Val (messages, input), st).
Proof. intros H. unfold Acionador.compress. stage_flag H. reflexivity. Qed.

Lemma pdfa_pt_disabled pdfa_def messages input st :
  flag (YMap m) "pdfa" "ativado" = Some false ->
  Acionador.pdfa w (YMap m) gs pdfa_def messages input st = (Val messages, st).
Proof. intros H. unfold Acionador.pdfa. stage_flag H. reflexivity. Qed.

Lemma merge_en_disabled st :
  flag (YMap m) "merge" "enabled" = Some false ->
  GuiLogs.merge w (YMap m) gs st = (Val ([], YNull), st).
Proof. intros H. unfold GuiLogs.merge. stage_flag H. reflexivity. Qed.

Lemma compress_en_disabled messages input st :
  flag (YMap m) "compress" "enabled" = Some false ->
  GuiLogs.compress w (YMap m) gs messages input st = (Val (messages, input), st).
Proof. intros H. unfold GuiLogs.compress. stage_flag H. reflexivity. Qed.

Lemma pdfa_en_disabled pdfa_def messages input st :
  flag (YMap m) "pdfa" "enabled" = Some false ->
  GuiLogs.pdfa w (YMap m) gs pdfa_def messages input st = (Val messages, st).
Proof. intros H. unfold GuiLogs.pdfa. stage_flag H. reflexivity. Qed.

(** Compression on, nothing to compress. *)
Lemma compress_en_no_input messages st :
  flag (YMap m) "compress" "enabled" = Some true ->
  GuiLogs.compress w (YMap m) gs messages YNull st
  = (Return,
     mkState (log st ++ ["Compression stage enabled."]) (calls st)
             (boxes st ++ [showerror "Erro" "Nenhum PDF para compressão."])).
Proof. intros H. unfold GuiLogs.compress. stage_flag H. reflexivity. Qed.

End Disabled.

(** ** [pdf_tool_gui_logs.py] with the merge stage switched off *)

Section MergeDisabledEn.

Variable w : world.
Variable config : yaml.
Variable gs : string.

Hypothesis engine_found : engine_path "paths" "ghostscript" config = Some gs.
Hypothesis definition_found : os_path_exists w (pdfa_def_path w gs) = true.
Hypothesis merge_off : flag config "merge" "enabled" = Some false.

Local Arguments String.append : simpl never.

(** Every stage off: the run ends normally with no message and no
    invocation. *)
Lemma all_disabled_en_finishes :
  flag config "compress" "enabled" = Some false ->
  flag config "pdfa" "enabled" = Some false ->
  GuiLogs.process w config start
  = (Val [],
     mkState (header_lines w gs ++ [nl ++ "=== Process Finished ===" ++ nl]) []
             [showinfo "Concluído" ""]).
Proof.
  intros Hc Hp.
  rewrite (process_en_eq w _ engine_found), definition_found.
  destruct (engine_path_map _ _ _ engine_found) as (m & E).
  revert merge_off Hc Hp. rewrite E. intros Hm Hc Hp.
  unfold GuiLogs.stages. rewrite !bind_assoc.
  rewrite (@bind_val _ _ _ _ _ _ _ (@merge_en_disabled w m gs _ Hm)). cbv beta iota.
  rewrite !bind_assoc.
  rewrite (@bind_val _ _ _ _ _ _ _ (@compress_en_disabled w m gs _ _ _ Hc)). cbv beta iota.
  rewrite (@bind_val _ _ _ _ _ _ _ (@pdfa_en_disabled w m gs _ _ _ _ Hp)).
  reflexivity.
Qed.

(** Compression on, merge off: the run stops at the no-input check of
    the compress stage. *)
Lemma compress_without_merge_en :
  flag config "compress" "enabled" = Some true ->
  GuiLogs.process w config start
  = (Return,
     mkState (header_lines w gs ++ ["Compression stage enabled."]) []
             [showerror "Erro" "Nenhum PDF para compressão."]).
Proof.
  intros Hc.
  rewrite (process_en_eq w _ engine_found), definition_found.
  destruct (engine_path_map _ _ _ engine_found) as (m & E).
  revert merge_off Hc. rewrite E. intros Hm Hc.
  unfold GuiLogs.stages. rewrite !bind_assoc.
  rewrite (@bind_val _ _ _ _ _ _ _ (@merge_en_disabled w m gs _ Hm)). cbv beta iota.
  rewrite !bind_assoc. unfold bind at 1.
  rewrite (@compress_en_no_input w m gs _ _ Hc).
  reflexivity.
Qed.

End MergeDisabledEn.

(** ** Runs of [acionador_ghostscript.py] that depart from the intended
    pipeline *)

(** C2. On the scenario, with an engine that succeeds,
    [acionador_ghostscript.py] runs the engine twice, first on a command
    that ends with a.pdf and then on the command that ends with a.pdf
    and b.pdf, and reports two messages, both "Junção OK → merged.pdf",
    where one invocation and the single message "Merge OK → merged.pdf"
    are expected. *)
Theorem page_range_scenario_invokes_twice :
  let r := Acionador.process (machine true (exits 0 "")) page_range_scenario start in
  fst r = Val ["Junção OK → merged.pdf"; "Junção OK → merged.pdf"]
  /\ calls (snd r)
     = [[YStr "/opt/gs/bin/gs"; YStr "-dBATCH"; YStr "-dNOPAUSE";
         YStr "-sDEVICE=pdfwrite"; YStr "-sOutputFile=merged.pdf";
         YStr "-dFirstPage=2"; YStr "-dLastPage=4"; YStr "a.pdf"];
        [YStr "/opt/gs/bin/gs"; YStr "-dBATCH"; YStr "-dNOPAUSE";
         YStr "-sDEVICE=pdfwrite"; YStr "-sOutputFile=merged.pdf";
         YStr "-dFirstPage=2"; YStr "-dLastPage=4"; YStr "a.pdf"; YStr "b.pdf"]].
Proof. vm_compute. split; reflexivity. Qed.

(** C4. With every stage switched off and PDFA_def.ps in place,
    [acionador_ghostscript.py] raises [UnboundLocalError] at the merge
    command instead of finishing with an empty list of messages;
    [pdf_tool_gui_logs.py] finishes with the empty list. Neither runs
    the engine. *)
Theorem all_disabled_run_raises :
  let w := machine true (exits 0 "") in
  fst (Acionador.process w all_disabled_pt start)
  = Raise (UnboundLocalError "saida_juncao")
  /\ calls (snd (Acionador.process w all_disabled_pt start)) = []
  /\ fst (GuiLogs.process w all_disabled_en start) = Val []
  /\ calls (snd (GuiLogs.process w all_disabled_en start)) = [].
Proof. vm_compute. repeat split; reflexivity. Qed.

(** C8. With compression switched on and merge switched off,
    [acionador_ghostscript.py] raises [UnboundLocalError] at the merge
    command and shows no error box, where the no-input error of the
    compress stage is expected; [pdf_tool_gui_logs.py] shows that error.
    Neither runs the engine. *)
Theorem compress_without_merge_raises :
  let w := machine true (exits 0 "") in
  fst (Acionador.process w compress_only_pt start)
  = Raise (UnboundLocalError "saida_juncao")
  /\ boxes (snd (Acionador.process w compress_only_pt start)) = []
  /\ calls (snd (Acionador.process w compress_only_pt start)) = []
  /\ fst (GuiLogs.process w compress_only_en start) = Return
  /\ boxes (snd (GuiLogs.process w compress_only_en start))
     = [showerror "Erro" "Nenhum PDF para compressão."]
  /\ calls (snd (GuiLogs.process w compress_only_en start)) = [].
Proof. vm_compute. repeat split; reflexivity. Qed.

(** ** The archive profile *)

Lemma prefix_append s t : String.prefix s (s ++ t) = true.
Proof.
  induction s as [|c s IH]; simpl.
  - now destruct t.
  - destruct (ascii_dec c c) as [_|N]; [exact IH | now elim N].
Qed.

Lemma profile_line_fmt v : profile_line ("PDF/A profile: " ++ v) = true.
Proof. apply prefix_append. Qed.

Lemma same_but_profile_refl l : same_but_profile l l.
Proof. induction l; constructor; auto. Qed.

Lemma same_but_profile_app l1 l2 r1 r2 :
  same_but_profile l1 l2 -> same_but_profile r1 r2 ->
  same_but_profile (l1 ++ r1) (l2 ++ r2).
Proof. apply Forall2_app. Qed.

Lemma same_but_profile_lines u v :
  same_but_profile ["PDF/A profile: " ++ u] ["PDF/A profile: " ++ v].
Proof.
  constructor; [|constructor]. right. split; apply profile_line_fmt.
Qed.

Lemma similar_refl {A} (r : ctl A * state) : similar r r.
Proof. repeat split. apply same_but_profile_refl. Qed.

Lemma similar_bind {A B} (c : M A) (f1 f2 : A -> M B) st :
  (forall a st', similar (f1 a st') (f2 a st')) ->
  similar (bind c f1 st) (bind c f2 st).
Proof.
  intros H. unfold bind. destruct (c st) as [[a| |e] st'];
    [apply H | apply similar_refl | apply similar_refl].
Qed.

(** The end of [process] keeps two similar runs similar. *)
Lemma similar_finish (c1 c2 : M (list string)) st :
  similar (c1 st) (c2 st) ->
  similar
    ((messages <- c1 ;;
      log_write (nl ++ "=== Process Finished ===" ++ nl) ;;
      messagebox (showinfo "Concluído" (String.concat nl messages)) ;;
      ret messages) st)
    ((messages <- c2 ;;
      log_write (nl ++ "=== Process Finished ===" ++ nl) ;;
      messagebox (showinfo "Concluído" (String.concat nl messages)) ;;
      ret messages) st).
Proof.
  unfold similar, bind.
  destruct (c1 st) as [[a1| |e1] st1], (c2 st) as [[a2| |e2] st2];
    cbn [fst snd]; intros (Hv & Hc & Hb & Hl); try discriminate;
    cbn [log_write messagebox ret fst snd log calls boxes].
  - injection Hv as ->. repeat split; [assumption | now rewrite Hb |].
    apply same_but_profile_app; [assumption | apply same_but_profile_refl].
  - auto.
  - auto.
Qed.

Lemma subscript_other k k0 v m :
  k0 <> k -> subscript (YMap (assoc_set k0 v m)) k = subscript (YMap m) k.
Proof. intros H. cbn [subscript]. now rewrite lookup_assoc_set_other. Qed.

Lemma subscript_same k v m : subscript (YMap (assoc_set k v m)) k = ret v.
Proof. cbn [subscript]. now rewrite lookup_assoc_set_same. Qed.

Lemma subscript_lookup k v m : lookup k m = Some v -> subscript (YMap m) k = ret v.
Proof. intros H. cbn [subscript]. now rewrite H. Qed.

Lemma py_get_other k k0 v m d :
  k0 <> k -> py_get (YMap (assoc_set k0 v m)) k d = py_get (YMap m) k d.
Proof. intros H. cbn [py_get]. unfold dict_get. now rewrite lookup_assoc_set_other. Qed.

Lemma py_get_same k v m d : py_get (YMap (assoc_set k v m)) k d = ret v.
Proof. cbn [py_get]. unfold dict_get. now rewrite lookup_assoc_set_same. Qed.

Lemma py_get_lookup k v m d : lookup k m = Some v -> py_get (YMap m) k d = ret v.
Proof. intros H. cbn [py_get]. unfold dict_get. now rewrite H. Qed.

Section Profile.

Variable w : world.
Variable m a : list (string * yaml).
Variable profile : string.

Hypothesis pdfa_section : lookup "pdfa" m = Some (YMap a).

Local Arguments String.append : simpl never.
Local Arguments run_gs : simpl never.

(** Close a goal about two final results that differ in the profile
    line at most. *)
Ltac similar_logs :=
  unfold similar; cbn [fst snd log calls boxes];
  repeat split;
  repeat first
    [ apply same_but_profile_lines
    | apply same_but_profile_app
    | apply same_but_profile_refl ].

Lemma pdfa_pt_profile gs pdfa_def messages input st :
  similar
    (Acionador.pdfa w (YMap m) gs pdfa_def messages input st)
    (Acionador.pdfa w
       (YMap (assoc_set "pdfa" (YMap (assoc_set "perfil" (YStr profile) a)) m))
       gs pdfa_def messages input st).
Proof.
  unfold Acionador.pdfa.
  rewrite !py_get_same, !subscript_same.
  rewrite !(@py_get_lookup _ _ _ _ pdfa_section), !(@subscript_lookup _ _ _ pdfa_section).
  rewrite !bind_ret. cbn [py_get]. rewrite !bind_ret.
  unfold dict_get at 2. rewrite lookup_assoc_set_other by discriminate.
  fold (dict_get a "ativado" (YBool false)).
  destruct (truthy (dict_get a "ativado" (YBool false))); [|apply similar_refl].
  rewrite !bind_log_write.
  destruct input as [input|]; [|apply similar_refl].
  cbn [read_local]. rewrite !bind_ret.
  destruct (is_none input); [apply similar_refl|].
  rewrite !bind_ret. cbn [subscript].
  rewrite lookup_assoc_set_other by discriminate.
  destruct (lookup "saida" a) as [output_pdfa|]; [|apply similar_refl].
  rewrite !bind_ret. cbn [py_get].
  rewrite !bind_ret, !bind_log_write, !bind_run_gs. cbn [log calls boxes].
  destruct (classify (subprocess_run w (calls st)
                        (Acionador.pdfa_cmd w gs pdfa_def output_pdfa input)))
    as [[|] err]; cbn [negb].
  - cbn [py_str]. unfold dict_get. rewrite lookup_assoc_set_same. similar_logs.
  - rewrite !bind_messagebox. cbn [py_str]. unfold dict_get.
    rewrite lookup_assoc_set_same. similar_logs.
Qed.

Lemma pdfa_en_profile gs pdfa_def messages input st :
  similar
    (GuiLogs.pdfa w (YMap m) gs pdfa_def messages input st)
    (GuiLogs.pdfa w
       (YMap (assoc_set "pdfa" (YMap (assoc_set "profile" (YStr profile) a)) m))
       gs pdfa_def messages input st).
Proof.
  unfold GuiLogs.pdfa.
  rewrite !py_get_same, !subscript_same.
  rewrite !(@py_get_lookup _ _ _ _ pdfa_section), !(@subscript_lookup _ _ _ pdfa_section).
  rewrite !bind_ret. cbn [py_get]. rewrite !bind_ret.
  unfold dict_get at 2. rewrite lookup_assoc_set_other by discriminate.
  fold (dict_get a "enabled" (YBool false)).
  destruct (truthy (dict_get a "enabled" (YBool false))); [|apply similar_refl].
  rewrite !bind_log_write.
  destruct (is_none input); [apply similar_refl|].
  rewrite !bind_ret. cbn [subscript].
  rewrite lookup_assoc_set_other by discriminate.
  destruct (lookup "output" a) as [output_pdfa|]; [|apply similar_refl].
  rewrite !bind_ret. cbn [py_get].
  rewrite !bind_ret, !bind_log_write, !bind_run_gs. cbn [log calls boxes].
  destruct (classify (subprocess_run w (calls st)
                        (GuiLogs.pdfa_cmd w gs pdfa_def output_pdfa input)))
    as [[|] err]; cbn [negb].
  - cbn [py_str]. unfold dict_get. rewrite lookup_assoc_set_same. similar_logs.
  - rewrite !bind_messagebox. cbn [py_str]. unfold dict_get.
    rewrite lookup_assoc_set_same. similar_logs.
Qed.

(** Every statement before the archive stage reads the same values from
    the two configurations. *)
Lemma process_pt_profile :
  similar
    (Acionador.process w (YMap m) start)
    (Acionador.process w
       (YMap (assoc_set "pdfa" (YMap (assoc_set "perfil" (YStr profile) a)) m))
       start).
Proof.
  unfold Acionador.process.
  rewrite assoc_set_truthy.
  assert (Hm : truthy (YMap m) = true) by (destruct m; [discriminate | reflexivity]).
  rewrite Hm. cbn [negb].
  unfold preflight. rewrite subscript_other by discriminate.
  apply similar_bind; intros [gs pdfa_def] st1.
  apply similar_finish.
  unfold Acionador.stages, Acionador.merge, Acionador.merge_block, Acionador.compress.
  rewrite !py_get_other, !subscript_other by discriminate.
  apply similar_bind; intros [messages input] st9.
  apply similar_bind; intros [messages' input'] st10.
  apply pdfa_pt_profile.
Qed.

Lemma process_en_profile :
  similar
    (GuiLogs.process w (YMap m) start)
    (GuiLogs.process w
       (YMap (assoc_set "pdfa" (YMap (assoc_set "profile" (YStr profile) a)) m))
       start).
Proof.
  unfold GuiLogs.process.
  rewrite assoc_set_truthy.
  assert (Hm : truthy (YMap m) = true) by (destruct m; [discriminate | reflexivity]).
  rewrite Hm. cbn [negb].
  unfold preflight. rewrite subscript_other by discriminate.
  apply similar_bind; intros [gs pdfa_def] st1.
  apply similar_finish.
  unfold GuiLogs.stages, GuiLogs.merge, GuiLogs.compress.
  rewrite !py_get_other, !subscript_other by discriminate.
  apply similar_bind; intros [messages input] st8.
  apply similar_bind; intros [messages' input'] st9.
  apply pdfa_en_profile.
Qed.

End Profile.

(** C10. Setting the archive profile of a configuration changes neither
    the result of the run, nor the argument vectors given to the engine
    (that of the archive stage included), nor the boxes shown; the two
    logs differ at most in the line that shows the profile. This holds
    for both files. *)
Theorem profile_affects_log_only (w : world) (config : yaml) (profile : string) :
  (let r1 := Acionador.process w config start in
   let r2 := Acionador.process w (with_profile "perfil" profile config) start in
   calls (snd r1) = calls (snd r2)
   /\ fst r1 = fst r2
   /\ boxes (snd r1) = boxes (snd r2)
   /\ same_but_profile (log (snd r1)) (log (snd r2)))
  /\ (let r1 := GuiLogs.process w config start in
      let r2 := GuiLogs.process w (with_profile "profile" profile config) start in
      calls (snd r1) = calls (snd r2)
      /\ fst r1 = fst r2
      /\ boxes (snd r1) = boxes (snd r2)
      /\ same_but_profile (log (snd r1)) (log (snd r2))).
Proof.
  assert (Hrefl : forall r : ctl (list string) * state,
             calls (snd r) = calls (snd r) /\ fst r = fst r
             /\ boxes (snd r) = boxes (snd r)
             /\ same_but_profile (log (snd r)) (log (snd r))).
  { intros r. repeat split. apply same_but_profile_refl. }
  unfold with_profile.
  destruct config as [| | | | |m]; try (split; apply Hrefl).
  destruct (lookup "pdfa" m) as [[| | | | |a]|] eqn:E; try (split; apply Hrefl).
  split; cbv zeta.
  - destruct (@process_pt_profile w m a profile E) as (H1 & H2 & H3 & H4). auto.
  - destruct (@process_en_profile w m a profile E) as (H1 & H2 & H3 & H4). auto.
Qed.

(** On a run with every stage switched on, the profile does show in the
    log. *)
Example profile_is_logged :
  In "PDF/A profile: PDF/A-1b"
     (log (snd (Acionador.process (machine true (exits 0 ""))
                  (with_profile "perfil" "PDF/A-1b" all_enabled_pt) start)))
  /\ In "PDF/A profile: PDF/A-2b"
       (log (snd (Acionador.process (machine true (exits 0 "")) all_enabled_pt start))).
Proof. vm_compute. split; repeat (try (left; reflexivity); right). Qed.

(** ** The two key schemes *)

Lemma related_bind {A B A' B'} (same : A -> B -> Prop) (same' : A' -> B' -> Prop)
    (c1 : M A) (c2 : M B) (f1 : A -> M A') (f2 : B -> M B') st1 st2 :
  related same (c1 st1) (c2 st2) ->
  (forall a b s1 s2,
      same a b -> calls s1 = calls s2 -> boxes s1 = [] -> boxes s2 = [] ->
      related same' (f1 a s1) (f2 b s2)) ->
  related same' (bind c1 f1 st1) (bind c2 f2 st2).
Proof.
  unfold related at 1, bind. intros (Hc & H) Hf.
  destruct (c1 st1) as [[a| |e1] s1], (c2 st2) as [[b| |e2] s2];
    cbn [fst snd] in *; try contradiction.
  - destruct H as (Hs & Hb1 & Hb2). now apply Hf.
  - split; assumption.
Qed.

Section Schemes.

Variable w : world.

Local Arguments String.append : simpl never.
Local Arguments run_gs : simpl never.
Local Arguments bind : simpl never.

(** Run a stage on a rendered configuration up to the next engine
    invocation. *)
Ltac run :=
  repeat first
    [ rewrite bind_assoc | rewrite bind_ret | rewrite bind_log_write
    | rewrite bind_messagebox
    | rewrite bind_run_gs | rewrite bind_early_return | progress cbn ].

(** Close a goal on two results that have been computed. *)
Ltac related_done :=
  unfold related, same_locals, same_messages; cbn [ret fst snd calls boxes];
  repeat match goal with
         | H : boxes _ = [] |- _ => rewrite H
         | H : calls _ = calls _ |- _ => rewrite H
         end;
  cbn [app];
  repeat first [ split | reflexivity | eexists ].

Lemma merge_related pc ms input st :
  mergeStage pc = Some ms ->
  merge_enabled ms = true ->
  effective_inputs w ms = [input] ->
  boxes st = [] ->
  related (same_locals (merge_output ms))
    (Acionador.merge w (render portuguese pc) (enginePath pc) st)
    (GuiLogs.merge w (render english pc) (enginePath pc) st).
Proof.
  intros Hms Hen Hin Hb.
  destruct pc as [gs level mS cS aS]. cbn in Hms. subst mS.
  destruct ms as [en inputs out]. cbn in Hen. subst en.
  unfold effective_inputs in Hin. cbn in Hin.
  unfold Acionador.merge, Acionador.merge_block, Acionador.merge_run, GuiLogs.merge.
  destruct inputs as [|x [|y l]]; try discriminate.
  - run. rewrite Hin. run.
    destruct (classify _) as [[|] err]; run; related_done.
  - injection Hin as ->. run.
    destruct (classify _) as [[|] err]; run; related_done.
Qed.

Lemma compress_related pc output l1 l2 st1 st2 :
  same_locals output l1 l2 ->
  calls st1 = calls st2 -> boxes st1 = [] -> boxes st2 = [] ->
  related (same_locals output)
    (Acionador.compress w (render portuguese pc) (enginePath pc) (fst l1) (snd l1) st1)
    (GuiLogs.compress w (render english pc) (enginePath pc) (fst l2) (snd l2) st2).
Proof.
  destruct l1 as [m1 i1], l2 as [m2 i2].
  intros ((rest & -> & ->) & (artifact & Hi1 & Hi2)) Hc Hb1 Hb2.
  cbn [fst snd] in *. subst i1 i2.
  destruct pc as [gs level [[men mins mout]|] [[[|] cout]|] [[aen aout [prof|]]|]];
    unfold Acionador.compress, GuiLogs.compress; run;
    try rewrite Hc;
    try (destruct (classify _) as [[|] err]; run);
    related_done.
Qed.

Lemma pdfa_related pc output l1 l2 st1 st2 :
  same_locals output l1 l2 ->
  calls st1 = calls st2 -> boxes st1 = [] -> boxes st2 = [] ->
  related (same_messages output)
    (Acionador.pdfa w (render portuguese pc) (enginePath pc)
       (pdfa_def_path w (enginePath pc)) (fst l1) (snd l1) st1)
    (GuiLogs.pdfa w (render english pc) (enginePath pc)
       (pdfa_def_path w (enginePath pc)) (fst l2) (snd l2) st2).
Proof.
  destruct l1 as [m1 i1], l2 as [m2 i2].
  intros ((rest & -> & ->) & (artifact & Hi1 & Hi2)) Hc Hb1 Hb2.
  cbn [fst snd] in *. subst i1 i2.
  destruct pc as [gs level [[men mins mout]|] [[cen cout]|] [[[|] aout [prof|]]|]];
    unfold Acionador.pdfa, GuiLogs.pdfa; run;
    try rewrite Hc;
    try (destruct (classify _) as [[|] err]; run);
    related_done.
Qed.

(** From the stages to the whole run. *)
Lemma finish_related output (c1 c2 : M (list string)) st1 st2 :
  related (same_messages output) (c1 st1) (c2 st2) ->
  let finish (c : M (list string)) :=
    messages <- c ;;
    log_write (nl ++ "=== Process Finished ===" ++ nl) ;;
    messagebox (showinfo "Concluído" (String.concat nl messages)) ;;
    ret messages in
  calls (snd (finish c1 st1)) = calls (snd (finish c2 st2))
  /\ agree output (finish c1 st1) (finish c2 st2).
Proof.
  unfold related. intros (Hc & H). cbv zeta. unfold bind at 1 4 7 10.
  destruct (c1 st1) as [[m1| |e1] [l1 k1 b1]], (c2 st2) as [[m2| |e2] [l2 k2 b2]];
    cbn [fst snd calls boxes] in *; try contradiction.
  - destruct H as ((rest & -> & ->) & _ & _).
    run. split; [assumption | constructor].
  - destruct H as (t1 & t2 & d & -> & ->). split; [assumption | constructor].
Qed.

End Schemes.

(** C3 (amended). For a configuration written in both key schemes whose
    merge stage is switched on with exactly one (bare) input, configured
    or picked, the two files give the engine the same argument vectors
    in the same order, and either both finish, with success lists that
    are equal but for the name of the merge stage in the first message
    ("Junção" against "Merge"), or both stop on an error box with the
    same error detail. *)
Theorem schemes_agree_on_single_input (w : world) (pc : PipelineConfig)
    (ms : MergeStage) (input : string) :
  mergeStage pc = Some ms ->
  merge_enabled ms = true ->
  effective_inputs w ms = [input] ->
  let r_pt := Acionador.process w (render portuguese pc) start in
  let r_en := GuiLogs.process w (render english pc) start in
  calls (snd r_pt) = calls (snd r_en) /\ agree (merge_output ms) r_pt r_en.
Proof.
  intros Hms Hen Hin r_pt r_en. subst r_pt r_en.
  rewrite (@process_pt_eq w (render portuguese pc) (enginePath pc) eq_refl).
  rewrite (@process_en_eq w (render english pc) (enginePath pc) eq_refl).
  destruct (os_path_exists w (pdfa_def_path w (enginePath pc))).
  2: { split; [reflexivity | constructor]. }
  apply finish_related.
  unfold Acionador.stages, GuiLogs.stages.
  eapply related_bind.
  { exact (@merge_related w pc ms input
             (mkState (header_lines w (enginePath pc)) [] []) Hms Hen Hin eq_refl). }
  intros [m1 i1] [m2 i2] s1 s2 Hl Hc Hb1 Hb2.
  eapply related_bind.
  { exact (@compress_related w pc _ (m1, i1) (m2, i2) s1 s2 Hl Hc Hb1 Hb2). }
  intros [m1' i1'] [m2' i2'] s1' s2' Hl' Hc' Hb1' Hb2'.
  exact (@pdfa_related w pc _ (m1', i1') (m2', i2') s1' s2' Hl' Hc' Hb1' Hb2').
Qed.

Lemma schemes_agree_on_single_input_witness :
  let w := machine true (exits 0 "") in
  let r_pt := Acionador.process w (render portuguese single_input) start in
  let r_en := GuiLogs.process w (render english single_input) start in
  calls (snd r_pt) = calls (snd r_en) /\ agree "merged.pdf" r_pt r_en.
Proof.
  exact (@schemes_agree_on_single_input (machine true (exits 0 "")) single_input
           {| merge_enabled := true; merge_inputs := ["a.pdf"];
              merge_output := "merged.pdf" |}
           "a.pdf" eq_refl eq_refl eq_refl).
Defined.

(** Outright agreement fails on that configuration: the engine is given the
    same three argument vectors by both files, but the success lists
    differ in their first message. *)
Lemma schemes_differ_in_messages :
  ~ same_outcome
      (Acionador.process (machine true (exits 0 "")) (render portuguese single_input) start)
      (GuiLogs.process (machine true (exits 0 "")) (render english single_input) start).
Proof. intros [_ H]. vm_compute in H. discriminate. Qed.

(** ** The place of PDFA_def.ps on a POSIX machine *)

(** For an engine at /opt/gs/bin/gs the file is looked up two
    directories above /opt/gs/bin, in lib. *)
Example pdfa_def_path_posix :
  pdfa_def_path (machine true (exits 0 "")) "/opt/gs/bin/gs" = "/opt/lib/PDFA_def.ps".
Proof. reflexivity. Qed.

(** * Further properties of the two files *)

(** ** Statements keep the log, the invocations and the boxes in order *)

Lemma orderly_ret {A} (a : A) : orderly (ret a).
Proof.
  intros st. cbn. repeat split; try (exists []; now rewrite app_nil_r).
Qed.

Lemma orderly_raise {A} e : orderly (@raise A e).
Proof.
  intros st. cbn. repeat split; try (exists []; now rewrite app_nil_r).
Qed.

Lemma orderly_log_write text : orderly (log_write text).
Proof.
  intros st. cbn. repeat split; [now exists [text] | exists []; now rewrite app_nil_r].
Qed.

Lemma orderly_stop {A} title detail :
  orderly (messagebox (showerror title detail) ;; @early_return A).
Proof.
  intros st. cbn. repeat split; try (exists []; now rewrite app_nil_r).
  now exists title, detail.
Qed.

Lemma orderly_subscript v k : orderly (subscript v k).
Proof.
  destruct v as [| | | | |m]; cbn [subscript]; try apply orderly_raise.
  destruct (lookup k m); [apply orderly_ret | apply orderly_raise].
Qed.

Lemma orderly_py_get v k d : orderly (py_get v k d).
Proof.
  destruct v; cbn [py_get]; first [apply orderly_ret | apply orderly_raise].
Qed.

Lemma orderly_read_local name v : orderly (read_local name v).
Proof. destruct v; [apply orderly_ret | apply orderly_raise]. Qed.

Lemma orderly_py_iter v : orderly (py_iter v).
Proof. destruct v; cbn [py_iter]; first [apply orderly_ret | apply orderly_raise]. Qed.

Lemma orderly_list_concat l v : orderly (GuiLogs.list_concat l v).
Proof.
  destruct v; cbn [GuiLogs.list_concat]; first [apply orderly_ret | apply orderly_raise].
Qed.

Lemma orderly_run_gs w cmd : orderly (run_gs w cmd).
Proof.
  intros st. rewrite run_gs_eq. cbn [fst snd log calls boxes].
  repeat split; eexists; reflexivity.
Qed.

Lemma orderly_bind {A B} (c : M A) (f : A -> M B) :
  orderly c -> (forall a, orderly (f a)) -> orderly (bind c f).
Proof.
  intros Hc Hf st. specialize (Hc st). unfold bind.
  destruct (c st) as [[a| |e] st1]; cbn [fst snd] in *; try exact Hc.
  destruct Hc as ((l1 & Hl1) & (k1 & Hk1) & Hb1).
  destruct (Hf a st1) as ((l2 & Hl2) & (k2 & Hk2) & Hb2).
  rewrite Hl1 in Hl2. rewrite Hk1 in Hk2. rewrite Hb1 in Hb2.
  repeat split.
  - exists (l1 ++ l2)%list. now rewrite app_assoc.
  - exists (k1 ++ k2)%list. now rewrite app_assoc.
  - exact Hb2.
Qed.

(** Take a statement apart along its binds, tests and matches. *)
Ltac orderly_step :=
  lazymatch goal with
  | |- orderly (bind (messagebox (showerror _ _)) (fun _ => early_return)) =>
      apply orderly_stop
  | |- orderly (ret _) => apply orderly_ret
  | |- orderly (raise _) => apply orderly_raise
  | |- orderly (log_write _) => apply orderly_log_write
  | |- orderly (subscript _ _) => apply orderly_subscript
  | |- orderly (py_get _ _ _) => apply orderly_py_get
  | |- orderly (read_local _ _) => apply orderly_read_local
  | |- orderly (py_iter _) => apply orderly_py_iter
  | |- orderly (GuiLogs.list_concat _ _) => apply orderly_list_concat
  | |- orderly (run_gs _ _) => apply orderly_run_gs
  | |- orderly (bind _ _) => apply orderly_bind; [|intros ?]
  | |- orderly (if ?b then _ else _) => destruct b
  | |- orderly (match ?x with _ => _ end) => destruct x
  | |- orderly (let _ := _ in _) => cbv zeta
  end.

Section Orderly.

Variable w : world.

Lemma orderly_preflight k_paths k_gs config : orderly (preflight w k_paths k_gs config).
Proof. unfold preflight. repeat orderly_step. Qed.

Lemma orderly_merge_loop saida items : forall cmd messages input,
  orderly (Acionador.merge_loop w saida items cmd messages input).
Proof.
  induction items as [|item rest IH]; intros cmd messages input.
  - apply orderly_ret.
  - rewrite merge_loop_cons. cbv zeta.
    destruct (Acionador.item_step w item); repeat first [apply IH | orderly_step].
Qed.

Lemma orderly_stages_pt config gs pdfa_def :
  orderly (Acionador.stages w config gs pdfa_def).
Proof.
  unfold Acionador.stages, Acionador.merge, Acionador.merge_block,
    Acionador.merge_run, Acionador.compress, Acionador.pdfa.
  repeat first [apply orderly_merge_loop | orderly_step].
Qed.

Lemma orderly_stages_en config gs pdfa_def :
  orderly (GuiLogs.stages w config gs pdfa_def).
Proof.
  unfold GuiLogs.stages, GuiLogs.merge, GuiLogs.compress, GuiLogs.pdfa.
  repeat orderly_step.
Qed.

End Orderly.

Lemma bind_cases {A B} (c : M A) (f : A -> M B) st :
  bind c f st
  = match c st with
    | (Val a, st') => f a st'
    | (Return, st') => (Return, st')
    | (Raise e, st') => (Raise e, st')
    end.
Proof. reflexivity. Qed.


(** X1. Whatever the state a run starts in, [process] only appends to
    the log file: the lines written earlier are still there, in the
    same order, at the head of the log. The same holds for the record of
    the engine invocations. This holds for both files. *)
Theorem process_appends_only (w : world) (config : yaml) (st : state) :
  (exists lines argvs,
      log (snd (Acionador.process w config st)) = (log st ++ lines)%list
      /\ calls (snd (Acionador.process w config st)) = (calls st ++ argvs)%list)
  /\ (exists lines argvs,
         log (snd (GuiLogs.process w config st)) = (log st ++ lines)%list
         /\ calls (snd (GuiLogs.process w config st)) = (calls st ++ argvs)%list).
Proof.
  assert (Hnil : forall s : state,
             exists lines argvs : _,
               log s = (log s ++ lines)%list /\ calls s = (calls s ++ argvs)%list).
  { intros s. exists [], []. now rewrite !app_nil_r. }
  split.
  - unfold Acionador.process. destruct (truthy config); cbn [negb]; [|apply Hnil].
    rewrite bind_cases.
    pose proof (orderly_preflight w "caminhos" "ghostscript" config st)
      as ((l1 & Hl1) & (k1 & Hk1) & _).
    destruct (preflight w "caminhos" "ghostscript" config st) as [[[gs def]| |e] st1];
      cbn [fst snd] in *; try (exists l1, k1; now split).
    rewrite bind_cases.
    pose proof (orderly_stages_pt w config gs def st1) as ((l2 & Hl2) & (k2 & Hk2) & _).
    destruct (Acionador.stages w config gs def st1) as [[messages| |e] st2];
      cbn [fst snd] in *; rewrite Hl1 in Hl2; rewrite Hk1 in Hk2;
      try (exists (l1 ++ l2)%list, (k1 ++ k2)%list; rewrite !app_assoc; now split).
    cbn. rewrite Hl2, Hk2.
    do 2 eexists; split; rewrite <- ?app_assoc; reflexivity.
  - unfold GuiLogs.process. destruct (truthy config); cbn [negb]; [|apply Hnil].
    rewrite bind_cases.
    pose proof (orderly_preflight w "paths" "ghostscript" config st)
      as ((l1 & Hl1) & (k1 & Hk1) & _).
    destruct (preflight w "paths" "ghostscript" config st) as [[[gs def]| |e] st1];
      cbn [fst snd] in *; try (exists l1, k1; now split).
    rewrite bind_cases.
    pose proof (orderly_stages_en w config gs def st1) as ((l2 & Hl2) & (k2 & Hk2) & _).
    destruct (GuiLogs.stages w config gs def st1) as [[messages| |e] st2];
      cbn [fst snd] in *; rewrite Hl1 in Hl2; rewrite Hk1 in Hk2;
      try (exists (l1 ++ l2)%list, (k1 ++ k2)%list; rewrite !app_assoc; now split).
    cbn. rewrite Hl2, Hk2.
    do 2 eexists; split; rewrite <- ?app_assoc; reflexivity.
Qed.

(** ** How often the engine is run *)

Lemma within_ret {A} n (a : A) : within n (ret a).
Proof. intros st. cbn. lia. Qed.

Lemma within_raise {A} n e : within n (@raise A e).
Proof. intros st. cbn. lia. Qed.

Lemma within_early_return {A} n : within n (@early_return A).
Proof. intros st. cbn. lia. Qed.

Lemma within_log_write n text : within n (log_write text).
Proof. intros st. cbn. lia. Qed.

Lemma within_messagebox n b : within n (messagebox b).
Proof. intros st. cbn. lia. Qed.

Lemma within_subscript n v k : within n (subscript v k).
Proof.
  destruct v as [| | | | |m]; cbn [subscript]; try apply within_raise.
  destruct (lookup k m); [apply within_ret | apply within_raise].
Qed.

Lemma within_py_get n v k d : within n (py_get v k d).
Proof. destruct v; cbn [py_get]; first [apply within_ret | apply within_raise]. Qed.

Lemma within_list_concat n l v : within n (GuiLogs.list_concat l v).
Proof.
  destruct v; cbn [GuiLogs.list_concat]; first [apply within_ret | apply within_raise].
Qed.

Lemma within_bind {A B} n m (c : M A) (f : A -> M B) :
  within n c -> (forall a, within m (f a)) -> within (n + m) (bind c f).
Proof.
  intros Hc Hf st. specialize (Hc st). rewrite bind_cases.
  destruct (c st) as [[a| |e] st1]; cbn [fst snd] in *; try lia.
  specialize (Hf a st1). lia.
Qed.

Lemma within_bind_quiet {A B} m (c : M A) (f : A -> M B) :
  within 0 c -> (forall a, within m (f a)) -> within m (bind c f).
Proof. apply (within_bind (n := 0)). Qed.

Lemma within_bind_run_gs {B} w cmd m (f : bool * string -> M B) :
  (forall r, within m (f r)) -> within (S m) (bind (run_gs w cmd) f).
Proof.
  intros Hf. apply (within_bind (n := 1)); [|exact Hf].
  intros st. rewrite run_gs_eq. cbn [snd calls]. rewrite length_app. cbn. lia.
Qed.

(** Take a statement apart, counting the calls of [run_gs]. *)
Ltac within_step :=
  lazymatch goal with
  | |- within _ (ret _) => apply within_ret
  | |- within _ (raise _) => apply within_raise
  | |- within _ early_return => apply within_early_return
  | |- within _ (log_write _) => apply within_log_write
  | |- within _ (messagebox _) => apply within_messagebox
  | |- within _ (subscript _ _) => apply within_subscript
  | |- within _ (py_get _ _ _) => apply within_py_get
  | |- within _ (GuiLogs.list_concat _ _) => apply within_list_concat
  | |- within _ (bind (run_gs _ _) _) => apply within_bind_run_gs; intros ?
  | |- within _ (bind _ _) => apply within_bind_quiet; [|intros ?]
  | |- within _ (if ?b then _ else _) => destruct b
  | |- within _ (match ?x with _ => _ end) => destruct x
  | |- within _ (let _ := _ in _) => cbv zeta
  end.

Section Within.

Variable w : world.

Lemma within_preflight k_paths k_gs config : within 0 (preflight w k_paths k_gs config).
Proof. unfold preflight. repeat within_step. Qed.

Lemma within_merge_en config gs : within 1 (GuiLogs.merge w config gs).
Proof. unfold GuiLogs.merge. repeat within_step. Qed.

Lemma within_compress_en config gs messages input :
  within 1 (GuiLogs.compress w config gs messages input).
Proof. unfold GuiLogs.compress. repeat within_step. Qed.

Lemma within_pdfa_en config gs pdfa_def messages input :
  within 1 (GuiLogs.pdfa w config gs pdfa_def messages input).
Proof. unfold GuiLogs.pdfa. repeat within_step. Qed.

Lemma within_stages_en config gs pdfa_def :
  within 3 (GuiLogs.stages w config gs pdfa_def).
Proof.
  unfold GuiLogs.stages.
  apply (within_bind (n := 1) (m := 2)); [apply within_merge_en|].
  intros [messages input].
  apply (within_bind (n := 1) (m := 1)); [apply within_compress_en|].
  intros [messages' input']. apply within_pdfa_en.
Qed.

End Within.

(** X3. [pdf_tool_gui_logs.py] runs the engine at most three times in a
    run, whatever the configuration and whatever the engine answers. *)
Theorem gui_logs_at_most_three_invocations (w : world) (config : yaml) :
  (length (calls (snd (GuiLogs.process w config start))) <= 3)%nat.
Proof.
  assert (H : within 3 (GuiLogs.process w config)).
  { unfold GuiLogs.process. destruct (negb (truthy config)).
    - apply within_early_return.
    - apply within_bind_quiet; [apply within_preflight|]. intros [gs pdfa_def].
      replace 3%nat with (3 + 0)%nat by reflexivity.
      apply within_bind; [apply within_stages_en|]. intros messages.
      repeat within_step. }
  exact (H start).
Qed.

(** X4. The merge loop of [acionador_ghostscript.py] runs the engine at
    most once per item, whatever the engine answers. *)
Theorem merge_loop_at_most_once_per_item (w : world) (saida : yaml) (items : list yaml) :
  forall cmd messages input st,
    (length (calls (snd (Acionador.merge_loop w saida items cmd messages input st)))
     <= length (calls st) + length items)%nat.
Proof.
  induction items as [|item rest IH]; intros cmd messages input st.
  - cbn. lia.
  - rewrite merge_loop_cons. cbv zeta.
    assert (Hrun : forall c s,
              (length (calls (snd
                 ((x <- run_gs w c ;;
                   (let (ok, err) := x in
                    if negb ok then
                      messagebox (showerror "Erro na junção " err) ;; early_return
                    else
                      Acionador.merge_loop w saida rest c
                        (append messages ("Junção OK → " ++ py_str w saida))
                        (Some saida))) s)))
               <= length (calls s) + S (length rest))%nat).
    { intros c s. rewrite bind_run_gs.
      destruct (classify _) as [[|] err]; cbn [negb].
      - match goal with |- context [Acionador.merge_loop w saida rest ?c ?m ?i ?s] =>
          specialize (IH c m i s) end.
        cbn [calls] in IH. rewrite length_app in IH. cbn [length] in IH. lia.
      - cbn. rewrite length_app. cbn. lia. }
    destruct (Acionador.item_step w item).
    + cbn [length]. apply Hrun.
    + specialize (IH cmd messages input st). cbn [length]. lia.
    + rewrite bind_log_write. cbn [length].
      match goal with |- context [run_gs w cmd] =>
        match goal with |- (length (calls (snd (_ ?s))) <= _)%nat =>
          specialize (Hrun cmd s) end end.
      cbn [calls] in Hrun. exact Hrun.
Qed.

(** ** Runs on a configuration read key by key *)

Lemma dict_get_lookup k v m d : lookup k m = Some v -> dict_get m k d = v.
Proof. intros H. unfold dict_get. now rewrite H. Qed.

Lemma section_of_inv config key s :
  section_of config key = Some s ->
  exists m, config = YMap m /\ lookup key m = Some (YMap s).
Proof.
  unfold section_of. destruct config as [| | | | |m]; try discriminate.
  destruct (lookup key m) as [[| | | | |s']|] eqn:E; try discriminate.
  intros H; injection H as H. subst s'. exists m. split; [reflexivity | exact E].
Qed.

(** Run the statements at the head of a stage, reading the
    configuration from the hypotheses at hand. *)
Ltac go :=
  repeat first
    [ rewrite bind_assoc | rewrite bind_ret | rewrite bind_log_write
    | rewrite bind_messagebox | rewrite bind_raise | rewrite bind_early_return
    | rewrite bind_run_gs
    | progress cbn [py_get subscript read_local py_iter is_none negb map
                    GuiLogs.list_concat log calls boxes]
    | progress cbv zeta
    | match goal with
      | H : lookup _ _ = Some _ |- _ => rewrite (@dict_get_lookup _ _ _ _ H)
      | H : lookup _ _ = _ |- _ => rewrite H
      | H : dict_get _ _ _ = _ |- _ => rewrite H
      | H : truthy _ = _ |- _ => rewrite H
      | H : askopenfilenames _ = _ |- _ => rewrite H
      | H : os_path_exists _ _ = _ |- _ => rewrite H
      end ].

Section NoInput.

Variable w : world.

Local Arguments String.append : simpl never.
Local Arguments run_gs : simpl never.

Lemma no_merge_input_pt m gs section :
  engine_path "caminhos" "ghostscript" (YMap m) = Some gs ->
  os_path_exists w (pdfa_def_path w gs) = true ->
  lookup "juntar" m = Some (YMap section) ->
  truthy (dict_get section "ativado" (YBool false)) = true ->
  truthy (dict_get section "arquivos" (YList [])) = false ->
  askopenfilenames w = [] ->
  Acionador.process w (YMap m) start
  = (Return,
     mkState (header_lines w gs
              ++ ["Estágio de junção ativado.";
                  "Arquivos de entrada para junção: " ++ py_str w (YList []);
                  "Nenhum arquivo para juntar."])
             []
             [showerror "Erro" "Nenhum arquivo para juntar."]).
Proof.
  intros Hgs Hdef Hsec Hen Hfiles Hpick.
  rewrite (process_pt_eq w _ Hgs).
  unfold Acionador.stages, Acionador.merge, Acionador.merge_block.
  go. cbn [truthy negb]. go.
  rewrite <- !app_assoc. reflexivity.
Qed.

Lemma no_merge_input_en m gs section :
  engine_path "paths" "ghostscript" (YMap m) = Some gs ->
  os_path_exists w (pdfa_def_path w gs) = true ->
  lookup "merge" m = Some (YMap section) ->
  truthy (dict_get section "enabled" (YBool false)) = true ->
  truthy (dict_get section "files" (YList [])) = false ->
  askopenfilenames w = [] ->
  GuiLogs.process w (YMap m) start
  = (Return,
     mkState (header_lines w gs
              ++ ["Merge stage enabled.";
                  "Merge input files: " ++ py_str w (YList []);
                  "Nenhum arquivo para merge."])
             []
             [showerror "Erro" "Nenhum arquivo para merge."]).
Proof.
  intros Hgs Hdef Hsec Hen Hfiles Hpick.
  rewrite (process_en_eq w _ Hgs).
  unfold GuiLogs.stages, GuiLogs.merge.
  go. cbn [truthy negb]. go.
  rewrite <- !app_assoc. reflexivity.
Qed.

End NoInput.

(** X5. In both files, when the merge stage is switched on, the
    configured list of inputs is empty or missing and nothing is picked
    in the file dialog, the run stops on the no-input error box before
    the output path is read, and the engine is not run. *)
Theorem no_merge_input_stops (w : world) (config_pt config_en : yaml)
    (gs_pt gs_en : string) (juntar merge : list (string * yaml)) :
  askopenfilenames w = [] ->
  engine_path "caminhos" "ghostscript" config_pt = Some gs_pt ->
  os_path_exists w (pdfa_def_path w gs_pt) = true ->
  section_of config_pt "juntar" = Some juntar ->
  truthy (dict_get juntar "ativado" (YBool false)) = true ->
  truthy (dict_get juntar "arquivos" (YList [])) = false ->
  engine_path "paths" "ghostscript" config_en = Some gs_en ->
  os_path_exists w (pdfa_def_path w gs_en) = true ->
  section_of config_en "merge" = Some merge ->
  truthy (dict_get merge "enabled" (YBool false)) = true ->
  truthy (dict_get merge "files" (YList [])) = false ->
  Acionador.process w config_pt start
  = (Return,
     mkState (header_lines w gs_pt
              ++ ["Estágio de junção ativado.";
                  "Arquivos de entrada para junção: " ++ py_str w (YList []);
                  "Nenhum arquivo para juntar."])
             []
             [showerror "Erro" "Nenhum arquivo para juntar."])
  /\ GuiLogs.process w config_en start
     = (Return,
        mkState (header_lines w gs_en
                 ++ ["Merge stage enabled.";
                     "Merge input files: " ++ py_str w (YList []);
                     "Nenhum arquivo para merge."])
                []
                [showerror "Erro" "Nenhum arquivo para merge."]).
Proof.
  intros Hpick Hgs1 Hdef1 Hsec1 Hen1 Hfiles1 Hgs2 Hdef2 Hsec2 Hen2 Hfiles2.
  destruct (section_of_inv _ _ Hsec1) as (m_pt & -> & Hl1).
  destruct (section_of_inv _ _ Hsec2) as (m_en & -> & Hl2).
  split.
  - now apply no_merge_input_pt with (section := juntar).
  - now apply no_merge_input_en with (section := merge).
Qed.

Lemma no_merge_input_stops_witness :
  let w := machine true (exits 0 "") in
  Acionador.process w empty_merge_pt start
  = (Return,
     mkState (header_lines w "/opt/gs/bin/gs"
              ++ ["Estágio de junção ativado.";
                  "Arquivos de entrada para junção: " ++ py_str w (YList []);
                  "Nenhum arquivo para juntar."])
             []
             [showerror "Erro" "Nenhum arquivo para juntar."])
  /\ GuiLogs.process w empty_merge_en start
     = (Return,
        mkState (header_lines w "/opt/gs/bin/gs"
                 ++ ["Merge stage enabled.";
                     "Merge input files: " ++ py_str w (YList []);
                     "Nenhum arquivo para merge."])
                []
                [showerror "Erro" "Nenhum arquivo para merge."]).
Proof.
  refine (@no_merge_input_stops (machine true (exits 0 "")) empty_merge_pt empty_merge_en
            "/opt/gs/bin/gs" "/opt/gs/bin/gs" _ _
            eq_refl eq_refl eq_refl eq_refl eq_refl eq_refl
            eq_refl eq_refl eq_refl eq_refl eq_refl).
Defined.

Section MissingOutput.

Variable w : world.

Local Arguments String.append : simpl never.
Local Arguments run_gs : simpl never.

Lemma missing_output_pt m gs section :
  engine_path "caminhos" "ghostscript" (YMap m) = Some gs ->
  os_path_exists w (pdfa_def_path w gs) = true ->
  lookup "juntar" m = Some (YMap section) ->
  truthy (dict_get section "ativado" (YBool false)) = true ->
  truthy (dict_get section "arquivos" (YList [])) = true ->
  lookup "saida" section = None ->
  fst (Acionador.process w (YMap m) start) = Raise (KeyError "saida")
  /\ calls (snd (Acionador.process w (YMap m) start)) = []
  /\ boxes (snd (Acionador.process w (YMap m) start)) = [].
Proof.
  intros Hgs Hdef Hsec Hen Hfiles Hout.
  rewrite (process_pt_eq w _ Hgs).
  unfold Acionador.stages, Acionador.merge, Acionador.merge_block.
  go. auto.
Qed.

Lemma missing_output_en m gs section :
  engine_path "paths" "ghostscript" (YMap m) = Some gs ->
  os_path_exists w (pdfa_def_path w gs) = true ->
  lookup "merge" m = Some (YMap section) ->
  truthy (dict_get section "enabled" (YBool false)) = true ->
  truthy (dict_get section "files" (YList [])) = true ->
  lookup "output" section = None ->
  fst (GuiLogs.process w (YMap m) start) = Raise (KeyError "output")
  /\ calls (snd (GuiLogs.process w (YMap m) start)) = []
  /\ boxes (snd (GuiLogs.process w (YMap m) start)) = [].
Proof.
  intros Hgs Hdef Hsec Hen Hfiles Hout.
  rewrite (process_en_eq w _ Hgs).
  unfold GuiLogs.stages, GuiLogs.merge.
  go. auto.
Qed.

End MissingOutput.

(** X6. In both files, when the merge stage is switched on with inputs
    but its section has no output path, the run raises [KeyError] on
    that key: no engine invocation has been made and no box is shown,
    so the failure is not reported to the user. *)
Theorem missing_output_key_raises (w : world) (config_pt config_en : yaml)
    (gs_pt gs_en : string) (juntar merge : list (string * yaml)) :
  engine_path "caminhos" "ghostscript" config_pt = Some gs_pt ->
  os_path_exists w (pdfa_def_path w gs_pt) = true ->
  section_of config_pt "juntar" = Some juntar ->
  truthy (dict_get juntar "ativado" (YBool false)) = true ->
  truthy (dict_get juntar "arquivos" (YList [])) = true ->
  lookup "saida" juntar = None ->
  engine_path "paths" "ghostscript" config_en = Some gs_en ->
  os_path_exists w (pdfa_def_path w gs_en) = true ->
  section_of config_en "merge" = Some merge ->
  truthy (dict_get merge "enabled" (YBool false)) = true ->
  truthy (dict_get merge "files" (YList [])) = true ->
  lookup "output" merge = None ->
  (fst (Acionador.process w config_pt start) = Raise (KeyError "saida")
   /\ calls (snd (Acionador.process w config_pt start)) = []
   /\ boxes (snd (Acionador.process w config_pt start)) = [])
  /\ (fst (GuiLogs.process w config_en start) = Raise (KeyError "output")
      /\ calls (snd (GuiLogs.process w config_en start)) = []
      /\ boxes (snd (GuiLogs.process w config_en start)) = []).
Proof.
  intros Hgs1 Hdef1 Hsec1 Hen1 Hfiles1 Hout1 Hgs2 Hdef2 Hsec2 Hen2 Hfiles2 Hout2.
  destruct (section_of_inv _ _ Hsec1) as (m_pt & -> & Hl1).
  destruct (section_of_inv _ _ Hsec2) as (m_en & -> & Hl2).
  split.
  - now apply missing_output_pt with (gs := gs_pt) (section := juntar).
  - now apply missing_output_en with (gs := gs_en) (section := merge).
Qed.

Lemma missing_output_key_raises_witness :
  let w := machine true (exits 0 "") in
  (fst (Acionador.process w no_output_pt start) = Raise (KeyError "saida")
   /\ calls (snd (Acionador.process w no_output_pt start)) = []
   /\ boxes (snd (Acionador.process w no_output_pt start)) = [])
  /\ (fst (GuiLogs.process w no_output_en start) = Raise (KeyError "output")
      /\ calls (snd (GuiLogs.process w no_output_en start)) = []
      /\ boxes (snd (GuiLogs.process w no_output_en start)) = []).
Proof.
  refine (@missing_output_key_raises (machine true (exits 0 "")) no_output_pt no_output_en
            "/opt/gs/bin/gs" "/opt/gs/bin/gs" _ _
            eq_refl eq_refl eq_refl eq_refl eq_refl eq_refl
            eq_refl eq_refl eq_refl eq_refl eq_refl eq_refl).
Defined.

(** ** [pdf_tool_gui_logs.py] when earlier stages are switched off *)

(** X7. In [pdf_tool_gui_logs.py], with PDFA_def.ps in place and the
    three stages switched off, the run ends normally: the list of
    messages is empty, the final box is shown with an empty text, and
    the engine is not run. *)
Theorem gui_logs_all_disabled (w : world) (config : yaml) (gs : string) :
  engine_path "paths" "ghostscript" config = Some gs ->
  os_path_exists w (pdfa_def_path w gs) = true ->
  flag config "merge" "enabled" = Some false ->
  flag config "compress" "enabled" = Some false ->
  flag config "pdfa" "enabled" = Some false ->
  GuiLogs.process w config start
  = (Val [],
     mkState (header_lines w gs ++ [nl ++ "=== Process Finished ===" ++ nl]) []
             [showinfo "Concluído" ""]).
Proof. intros. now apply all_disabled_en_finishes. Qed.

Lemma gui_logs_all_disabled_witness :
  let w := machine true (exits 0 "") in
  GuiLogs.process w all_disabled_en start
  = (Val [],
     mkState (header_lines w "/opt/gs/bin/gs" ++ [nl ++ "=== Process Finished ===" ++ nl])
             [] [showinfo "Concluído" ""]).
Proof.
  exact (@gui_logs_all_disabled (machine true (exits 0 "")) all_disabled_en
           "/opt/gs/bin/gs" eq_refl eq_refl eq_refl eq_refl eq_refl).
Defined.

(** X8. In [pdf_tool_gui_logs.py], with the merge stage switched off and
    the compress stage switched on, the run stops at the compress stage
    on the box "Nenhum PDF para compressão."; the engine is not run and
    the archive stage is not reached. *)
Theorem gui_logs_compress_needs_artifact (w : world) (config : yaml) (gs : string) :
  engine_path "paths" "ghostscript" config = Some gs ->
  os_path_exists w (pdfa_def_path w gs) = true ->
  flag config "merge" "enabled" = Some false ->
  flag config "compress" "enabled" = Some true ->
  GuiLogs.process w config start
  = (Return,
     mkState (header_lines w gs ++ ["Compression stage enabled."]) []
             [showerror "Erro" "Nenhum PDF para compressão."]).
Proof. intros. now apply compress_without_merge_en. Qed.

Lemma gui_logs_compress_needs_artifact_witness :
  let w := machine true (exits 0 "") in
  GuiLogs.process w compress_only_en start
  = (Return,
     mkState (header_lines w "/opt/gs/bin/gs" ++ ["Compression stage enabled."]) []
             [showerror "Erro" "Nenhum PDF para compressão."]).
Proof.
  exact (@gui_logs_compress_needs_artifact (machine true (exits 0 "")) compress_only_en
           "/opt/gs/bin/gs" eq_refl eq_refl eq_refl eq_refl).
Defined.

(** X9. In [pdf_tool_gui_logs.py], with the merge and compress stages
    switched off and the archive stage switched on, the run stops at
    the archive stage on the box "Nenhum PDF para PDF/A."; the engine
    is not run. *)
Theorem gui_logs_archive_needs_artifact (w : world) (config : yaml) (gs : string) :
  engine_path "paths" "ghostscript" config = Some gs ->
  os_path_exists w (pdfa_def_path w gs) = true ->
  flag config "merge" "enabled" = Some false ->
  flag config "compress" "enabled" = Some false ->
  flag config "pdfa" "enabled" = Some true ->
  GuiLogs.process w config start
  = (Return,
     mkState (header_lines w gs ++ ["PDF/A stage enabled."]) []
             [showerror "Erro" "Nenhum PDF para PDF/A."]).
Proof.
  intros Hgs Hdef Hm Hc Hp.
  rewrite (process_en_eq w _ Hgs), Hdef.
  destruct (engine_path_map _ _ _ Hgs) as (m & E). subst config.
  unfold GuiLogs.stages. rewrite !bind_assoc.
  rewrite (@bind_val _ _ _ _ _ _ _ (@merge_en_disabled w m gs _ Hm)). cbv beta iota.
  rewrite !bind_assoc.
  rewrite (@bind_val _ _ _ _ _ _ _ (@compress_en_disabled w m gs _ _ _ Hc)). cbv beta iota.
  unfold GuiLogs.pdfa. rewrite bind_cases. stage_flag Hp. reflexivity.
Qed.

Lemma gui_logs_archive_needs_artifact_witness :
  let w := machine true (exits 0 "") in
  GuiLogs.process w archive_only_en start
  = (Return,
     mkState (header_lines w "/opt/gs/bin/gs" ++ ["PDF/A stage enabled."]) []
             [showerror "Erro" "Nenhum PDF para PDF/A."]).
Proof.
  exact (@gui_logs_archive_needs_artifact (machine true (exits 0 "")) archive_only_en
           "/opt/gs/bin/gs" eq_refl eq_refl eq_refl eq_refl eq_refl).
Defined.

(** ** Items without a path in [acionador_ghostscript.py] *)

Section Pathless.

Variable w : world.

Local Arguments String.append : simpl never.
Local Arguments run_gs : simpl never.

(** The loop goes through items it skips without any effect. *)
Lemma merge_loop_all_skipped saida items : forall cmd messages input st,
  (forall item, In item items -> skipped w item = true) ->
  Acionador.merge_loop w saida items cmd messages input st
  = (Val (messages, input), st).
Proof.
  induction items as [|item rest IH]; intros cmd messages input st H.
  - reflexivity.
  - rewrite merge_loop_cons. cbv zeta.
    pose proof (H item (or_introl eq_refl)) as Hs. unfold skipped in Hs.
    destruct (Acionador.item_step w item); try discriminate.
    apply IH. intros i Hi. apply H. now right.
Qed.

End Pathless.

(** X10. In [acionador_ghostscript.py], when the merge stage is switched
    on and every item of its list is a dictionary without a path, the
    merge stage runs the engine for none of them and leaves the current
    artifact unassigned; with the compress stage switched on, the run
    then raises [UnboundLocalError] on [input_for_next_step], with no
    invocation made and no box shown. *)
Theorem pathless_items_leave_artifact_unbound (w : world) (config : yaml) (gs : string)
    (juntar : list (string * yaml)) (items : list yaml) (saida : yaml) :
  engine_path "caminhos" "ghostscript" config = Some gs ->
  os_path_exists w (pdfa_def_path w gs) = true ->
  section_of config "juntar" = Some juntar ->
  truthy (dict_get juntar "ativado" (YBool false)) = true ->
  dict_get juntar "arquivos" (YList []) = YList items ->
  items <> [] ->
  (forall item, In item items -> skipped w item = true) ->
  lookup "saida" juntar = Some saida ->
  flag config "compactar" "ativado" = Some true ->
  fst (Acionador.process w config start) = Raise (UnboundLocalError "input_for_next_step")
  /\ calls (snd (Acionador.process w config start)) = []
  /\ boxes (snd (Acionador.process w config start)) = [].
Proof.
  intros Hgs Hdef Hsec Hen Hfiles Hne Hskip Hout Hc.
  destruct (section_of_inv _ _ Hsec) as (m & -> & Hl).
  rewrite (process_pt_eq w _ Hgs).
  assert (Ht : truthy (YList items) = true) by (destruct items; [contradiction | reflexivity]).
  unfold Acionador.stages, Acionador.merge, Acionador.merge_block, Acionador.merge_run.
  go.
  rewrite (@bind_val _ _ _ _ _ _ _ (merge_loop_all_skipped w saida items _ _ _ _ Hskip)).
  cbv beta iota. unfold Acionador.compress. rewrite !bind_assoc.
  destruct (flag_map _ _ _ Hc) as (s & Hs & Hb). go. auto.
Qed.

Lemma pathless_items_leave_artifact_unbound_witness :
  let w := machine true (exits 0 "") in
  fst (Acionador.process w pathless_pt start)
  = Raise (UnboundLocalError "input_for_next_step")
  /\ calls (snd (Acionador.process w pathless_pt start)) = []
  /\ boxes (snd (Acionador.process w pathless_pt start)) = [].
Proof.
  refine (@pathless_items_leave_artifact_unbound (machine true (exits 0 "")) pathless_pt
            "/opt/gs/bin/gs" _
            [YMap [("pagina_inicial", YInt 2)]; YMap [("arquivo", YStr "")]]
            (YStr "merged.pdf")
            eq_refl eq_refl eq_refl eq_refl eq_refl _ _ eq_refl eq_refl).
  - discriminate.
  - intros item [<-|[<-|[]]]; reflexivity.
Defined.

(** ** Bare paths *)

Lemma bare_paths_args w paths :
  flat_map (Acionador.item_args w) (map YStr paths) = map YStr paths.
Proof. induction paths as [|p l IH]; [reflexivity|]. cbn. now rewrite IH. Qed.

Lemma merge_cmd_bare w gs saida paths :
  Acionador.merge_cmd w gs saida (map YStr paths)
  = (Acionador.merge_header w gs saida ++ map YStr paths)%list.
Proof. now rewrite merge_cmd_eq, bare_paths_args. Qed.

(** ** A stage that is switched on *)

Section StageOn.

Variable w : world.
Variable m : list (string * yaml).
Variable gs : string.

Local Arguments String.append : simpl never.
Local Arguments run_gs : simpl never.

(** The merge stage of [pdf_tool_gui_logs.py] on a configured list. *)
Lemma merge_en_eq section items output st :
  lookup "merge" m = Some (YMap section) ->
  truthy (dict_get section "enabled" (YBool false)) = true ->
  dict_get section "files" (YList []) = YList items ->
  items <> [] ->
  lookup "output" section = Some output ->
  let cmd := (GuiLogs.merge_header w gs output ++ items)%list in
  let r := subprocess_run w (calls st) cmd in
  let lines :=
    app (log st) ("Merge stage enabled." :: ("Merge input files: " ++ py_str w (YList items)) :: run_gs_log w cmd r) in
  GuiLogs.merge w (YMap m) gs st
  = match classify r with
    | (true, _) =>
        (Val (["Merge OK → " ++ py_str w output], output),
         mkState lines (calls st ++ [cmd]) (boxes st))
    | (false, err) =>
        (Return,
         mkState lines (calls st ++ [cmd]) (boxes st ++ [showerror "Erro no Merge" err]))
    end.
Proof.
  intros Hsec Hen Hfiles Hne Hout cmd r lines. subst cmd r lines.
  assert (Ht : truthy (YList items) = true) by (destruct items; [contradiction | reflexivity]).
  unfold GuiLogs.merge. go.
  destruct (classify _) as [[|] err]; go; rewrite <- !app_assoc; reflexivity.
Qed.

Lemma compress_en_eq section settings output level messages input st :
  lookup "compress" m = Some (YMap section) ->
  truthy (dict_get section "enabled" (YBool false)) = true ->
  lookup "output" section = Some output ->
  lookup "settings" m = Some (YMap settings) ->
  lookup "compression" settings = Some level ->
  is_none input = false ->
  let cmd := compress_argv w gs level output input in
  let r := subprocess_run w (calls st) cmd in
  let lines :=
    app (log st) ("Compression stage enabled." :: ("Compression level: " ++ py_str w level) :: run_gs_log w cmd r) in
  GuiLogs.compress w (YMap m) gs messages input st
  = match classify r with
    | (true, _) =>
        (Val (append messages ("Compressão OK → " ++ py_str w output), output),
         mkState lines (calls st ++ [cmd]) (boxes st))
    | (false, err) =>
        (Return,
         mkState lines (calls st ++ [cmd])
                 (boxes st ++ [showerror "Erro na Compressão" err]))
    end.
Proof.
  intros Hsec Hen Hout Hset Hlevel Hin cmd r lines. subst cmd r lines.
  unfold GuiLogs.compress, compress_argv. go. rewrite Hin. go.
  destruct (classify _) as [[|] err]; go; rewrite <- !app_assoc; reflexivity.
Qed.

Lemma pdfa_en_eq section output pdfa_def messages input st :
  lookup "pdfa" m = Some (YMap section) ->
  truthy (dict_get section "enabled" (YBool false)) = true ->
  lookup "output" section = Some output ->
  is_none input = false ->
  let cmd := GuiLogs.pdfa_cmd w gs pdfa_def output input in
  let r := subprocess_run w (calls st) cmd in
  let lines :=
    app (log st) ("PDF/A stage enabled." :: ("PDF/A profile: " ++ py_str w (dict_get section "profile" (YStr "PDF/A-2b"))) :: run_gs_log w cmd r) in
  GuiLogs.pdfa w (YMap m) gs pdfa_def messages input st
  = match classify r with
    | (true, _) =>
        (Val (append messages ("PDF/A OK → " ++ py_str w output)),
         mkState lines (calls st ++ [cmd]) (boxes st))
    | (false, err) =>
        (Return,
         mkState lines (calls st ++ [cmd]) (boxes st ++ [showerror "Erro PDF/A" err]))
    end.
Proof.
  intros Hsec Hen Hout Hin cmd r lines. subst cmd r lines.
  unfold GuiLogs.pdfa. go. rewrite Hin. go.
  destruct (classify _) as [[|] err]; go; rewrite <- !app_assoc; reflexivity.
Qed.

Lemma compress_pt_eq section settings output level messages input st :
  lookup "compactar" m = Some (YMap section) ->
  truthy (dict_get section "ativado" (YBool false)) = true ->
  lookup "saida" section = Some output ->
  lookup "parametros" m = Some (YMap settings) ->
  lookup "compactacao" settings = Some level ->
  is_none input = false ->
  let cmd := compress_argv w gs level output input in
  let r := subprocess_run w (calls st) cmd in
  let lines :=
    app (log st) ("Estágio de compressão ativado." :: ("Nível de compactação: " ++ py_str w level) :: run_gs_log w cmd r) in
  Acionador.compress w (YMap m) gs messages (Some input) st
  = match classify r with
    | (true, _) =>
        (Val (append messages ("Compressão OK → " ++ py_str w output), Some output),
         mkState lines (calls st ++ [cmd]) (boxes st))
    | (false, err) =>
        (Return,
         mkState lines (calls st ++ [cmd])
                 (boxes st ++ [showerror "Erro na Compactação" err]))
    end.
Proof.
  intros Hsec Hen Hout Hset Hlevel Hin cmd r lines. subst cmd r lines.
  unfold Acionador.compress, compress_argv. go. rewrite Hin. go.
  destruct (classify _) as [[|] err]; go; rewrite <- !app_assoc; reflexivity.
Qed.

Lemma pdfa_pt_eq section output pdfa_def messages input st :
  lookup "pdfa" m = Some (YMap section) ->
  truthy (dict_get section "ativado" (YBool false)) = true ->
  lookup "saida" section = Some output ->
  is_none input = false ->
  let cmd := Acionador.pdfa_cmd w gs pdfa_def output input in
  let r := subprocess_run w (calls st) cmd in
  let lines :=
    app (log st) ("Estágio de criação de PDF/A ativado." :: ("PDF/A profile: " ++ py_str w (dict_get section "perfil" (YStr "PDF/A-2b"))) :: run_gs_log w cmd r) in
  Acionador.pdfa w (YMap m) gs pdfa_def messages (Some input) st
  = match classify r with
    | (true, _) =>
        (Val (append messages ("PDF/A OK → " ++ py_str w output)),
         mkState lines (calls st ++ [cmd]) (boxes st))
    | (false, err) =>
        (Return,
         mkState lines (calls st ++ [cmd]) (boxes st ++ [showerror "Erro PDF/A" err]))
    end.
Proof.
  intros Hsec Hen Hout Hin cmd r lines. subst cmd r lines.
  unfold Acionador.pdfa. go. rewrite Hin. go.
  destruct (classify _) as [[|] err]; go; rewrite <- !app_assoc; reflexivity.
Qed.

End StageOn.

(** X12. The merge stage of [pdf_tool_gui_logs.py], switched on with a
    configured list of items and an output path, runs the engine exactly
    once, on the fixed flags followed by the items as they are (a
    dictionary item is handed over as it is, not turned into page
    flags). When the engine succeeds the stage yields the single message
    "Merge OK → output" and the output as the current artifact; when it
    fails the run stops on the box "Erro no Merge" that carries the
    error detail. *)
Theorem gui_logs_merge_single_invocation (w : world) (config : yaml) (gs : string)
    (merge : list (string * yaml)) (items : list yaml) (output : yaml) (st : state) :
  section_of config "merge" = Some merge ->
  truthy (dict_get merge "enabled" (YBool false)) = true ->
  dict_get merge "files" (YList []) = YList items ->
  items <> [] ->
  lookup "output" merge = Some output ->
  let cmd := (GuiLogs.merge_header w gs output ++ items)%list in
  let verdict := classify (subprocess_run w (calls st) cmd) in
  let r := GuiLogs.merge w config gs st in
  calls (snd r) = (calls st ++ [cmd])%list
  /\ fst r = (if fst verdict
              then Val (["Merge OK → " ++ py_str w output], output)
              else Return)
  /\ boxes (snd r) = (if fst verdict then boxes st
                      else boxes st ++ [showerror "Erro no Merge" (snd verdict)])%list.
Proof.
  intros Hsec Hen Hfiles Hne Hout cmd verdict r. subst cmd verdict r.
  destruct (section_of_inv _ _ Hsec) as (m & -> & Hl).
  rewrite (@merge_en_eq w m gs merge items output st Hl Hen Hfiles Hne Hout).
  cbv zeta. destruct (classify _) as [[|] err]; repeat split.
Qed.

Lemma gui_logs_merge_single_invocation_witness :
  let w := machine true (strict 0 "") in
  let items := [YMap [("path", YStr "a.pdf")]; YStr "b.pdf"] in
  let cmd := (GuiLogs.merge_header w "/opt/gs/bin/gs" (YStr "merged.pdf") ++ items)%list in
  let verdict := classify (subprocess_run w (calls start) cmd) in
  let r := GuiLogs.merge w raw_items_en "/opt/gs/bin/gs" start in
  calls (snd r) = (calls start ++ [cmd])%list
  /\ fst r = (if fst verdict
              then Val (["Merge OK → " ++ py_str w (YStr "merged.pdf")], YStr "merged.pdf")
              else Return)
  /\ boxes (snd r) = (if fst verdict then boxes start
                      else boxes start ++ [showerror "Erro no Merge" (snd verdict)])%list.
Proof.
  refine (@gui_logs_merge_single_invocation (machine true (strict 0 "")) raw_items_en
            "/opt/gs/bin/gs" _ [YMap [("path", YStr "a.pdf")]; YStr "b.pdf"]
            (YStr "merged.pdf") start eq_refl eq_refl eq_refl _ eq_refl).
  discriminate.
Defined.

(** X13. In [pdf_tool_gui_logs.py], with the three stages switched on
    and an engine that exits with code 0, a run makes three invocations
    in the order merge, compress, archive; the compress command reads
    the output of the merge stage and the archive command reads the
    output of the compress stage; the run ends with the three success
    messages in that order. *)
Theorem gui_logs_chains_stages (w : world) (config : yaml) (gs : string)
    (merge compress settings pdfa : list (string * yaml)) (items : list yaml)
    (merged level small archive : yaml) :
  always_exits_zero w ->
  engine_path "paths" "ghostscript" config = Some gs ->
  os_path_exists w (pdfa_def_path w gs) = true ->
  section_of config "merge" = Some merge ->
  truthy (dict_get merge "enabled" (YBool false)) = true ->
  dict_get merge "files" (YList []) = YList items ->
  items <> [] ->
  lookup "output" merge = Some merged ->
  is_none merged = false ->
  section_of config "compress" = Some compress ->
  truthy (dict_get compress "enabled" (YBool false)) = true ->
  lookup "output" compress = Some small ->
  is_none small = false ->
  section_of config "settings" = Some settings ->
  lookup "compression" settings = Some level ->
  section_of config "pdfa" = Some pdfa ->
  truthy (dict_get pdfa "enabled" (YBool false)) = true ->
  lookup "output" pdfa = Some archive ->
  let r := GuiLogs.process w config start in
  fst r = Val ["Merge OK → " ++ py_str w merged;
               "Compressão OK → " ++ py_str w small;
               "PDF/A OK → " ++ py_str w archive]
  /\ calls (snd r)
     = [(GuiLogs.merge_header w gs merged ++ items)%list;
        compress_argv w gs level small merged;
        GuiLogs.pdfa_cmd w gs (pdfa_def_path w gs) archive small].
Proof.
  intros Hok Hgs Hdef Hm Hmen Hfiles Hne Hmo Hmn Hc Hcen Hco Hcn Hs Hlv Hp Hpen Hpo r.
  subst r.
  rewrite (process_en_eq w _ Hgs), Hdef.
  destruct (section_of_inv _ _ Hm) as (m & -> & Hlm).
  destruct (section_of_inv _ _ Hc) as (m1 & E1 & Hlc). injection E1 as <-.
  destruct (section_of_inv _ _ Hs) as (m2 & E2 & Hls). injection E2 as <-.
  destruct (section_of_inv _ _ Hp) as (m3 & E3 & Hlp). injection E3 as <-.
  assert (Hv : forall h c, classify (subprocess_run w h c) = (true, "")).
  { intros h c. destruct (Hok h c) as (o & e & ->). reflexivity. }
  unfold GuiLogs.stages. rewrite !bind_assoc, bind_cases.
  rewrite (@merge_en_eq w m gs merge items merged _ Hlm Hmen Hfiles Hne Hmo).
  cbv zeta. rewrite Hv. cbv beta iota. rewrite !bind_assoc, bind_cases.
  rewrite (@compress_en_eq w m gs compress settings small level _ merged _
             Hlc Hcen Hco Hls Hlv Hmn).
  cbv zeta. rewrite Hv. cbv beta iota. rewrite bind_cases.
  rewrite (@pdfa_en_eq w m gs pdfa archive _ _ small _ Hlp Hpen Hpo Hcn).
  cbv zeta. rewrite Hv. split; reflexivity.
Qed.

(** X14. In [pdf_tool_gui_logs.py], when the merge invocation succeeds
    and the compress invocation exits with a code other than 0, the run
    stops on the box "Erro na Compressão" that carries the captured
    stderr; two invocations have been made and the archive stage,
    switched on or not, is never run. *)
Theorem gui_logs_compress_failure_stops (w : world) (config : yaml) (gs : string)
    (merge compress settings : list (string * yaml)) (items : list yaml)
    (merged level small : yaml) (code : Z) (out1 err1 out2 err2 : string) :
  engine_path "paths" "ghostscript" config = Some gs ->
  os_path_exists w (pdfa_def_path w gs) = true ->
  section_of config "merge" = Some merge ->
  truthy (dict_get merge "enabled" (YBool false)) = true ->
  dict_get merge "files" (YList []) = YList items ->
  items <> [] ->
  lookup "output" merge = Some merged ->
  is_none merged = false ->
  section_of config "compress" = Some compress ->
  truthy (dict_get compress "enabled" (YBool false)) = true ->
  lookup "output" compress = Some small ->
  section_of config "settings" = Some settings ->
  lookup "compression" settings = Some level ->
  let merge_argv := (GuiLogs.merge_header w gs merged ++ items)%list in
  let compress_call := compress_argv w gs level small merged in
  subprocess_run w [] merge_argv = Exited 0 out1 err1 ->
  subprocess_run w [merge_argv] compress_call = Exited code out2 err2 ->
  code <> 0%Z ->
  let r := GuiLogs.process w config start in
  fst r = Return
  /\ boxes (snd r) = [showerror "Erro na Compressão" err2]
  /\ calls (snd r) = [merge_argv; compress_call].
Proof.
  intros Hgs Hdef Hm Hmen Hfiles Hne Hmo Hmn Hc Hcen Hco Hs Hlv
    merge_argv compress_call Hrun1 Hrun2 Hcode r.
  subst r.
  rewrite (process_en_eq w _ Hgs), Hdef.
  destruct (section_of_inv _ _ Hm) as (m & -> & Hlm).
  destruct (section_of_inv _ _ Hc) as (m1 & E1 & Hlc). injection E1 as <-.
  destruct (section_of_inv _ _ Hs) as (m2 & E2 & Hls). injection E2 as <-.
  unfold GuiLogs.stages. rewrite !bind_assoc, bind_cases.
  rewrite (@merge_en_eq w m gs merge items merged _ Hlm Hmen Hfiles Hne Hmo).
  cbv zeta. cbn [calls]. fold merge_argv. rewrite Hrun1.
  cbn [classify Z.eqb]. cbv beta iota. rewrite !bind_assoc, bind_cases.
  rewrite (@compress_en_eq w m gs compress settings small level _ merged _
             Hlc Hcen Hco Hls Hlv Hmn).
  cbv zeta. cbn [calls app]. fold compress_call. rewrite Hrun2.
  cbn [classify]. destruct (code =? 0)%Z eqn:E; [apply Z.eqb_eq in E; contradiction|].
  repeat split.
Qed.

Lemma gui_logs_chains_stages_witness :
  let w := machine true (exits 0 "") in
  let gs := "/opt/gs/bin/gs" in
  let r := GuiLogs.process w all_enabled_en start in
  fst r = Val ["Merge OK → " ++ py_str w (YStr "merged.pdf");
               "Compressão OK → " ++ py_str w (YStr "small.pdf");
               "PDF/A OK → " ++ py_str w (YStr "archive.pdf")]
  /\ calls (snd r)
     = [(GuiLogs.merge_header w gs (YStr "merged.pdf") ++ [YStr "a.pdf"; YStr "b.pdf"])%list;
        compress_argv w gs (YStr "ebook") (YStr "small.pdf") (YStr "merged.pdf");
        GuiLogs.pdfa_cmd w gs (pdfa_def_path w gs) (YStr "archive.pdf") (YStr "small.pdf")].
Proof.
  refine (@gui_logs_chains_stages (machine true (exits 0 "")) all_enabled_en
            "/opt/gs/bin/gs" _ _ _ _ [YStr "a.pdf"; YStr "b.pdf"]
            (YStr "merged.pdf") (YStr "ebook") (YStr "small.pdf") (YStr "archive.pdf")
            (exits_zero_always true "") eq_refl eq_refl
            eq_refl eq_refl eq_refl _ eq_refl eq_refl
            eq_refl eq_refl eq_refl eq_refl
            eq_refl eq_refl
            eq_refl eq_refl eq_refl).
  discriminate.
Defined.

Lemma gui_logs_compress_failure_stops_witness :
  let w := machine true (fails_after 1 1 "disk full") in
  let gs := "/opt/gs/bin/gs" in
  let r := GuiLogs.process w all_enabled_en start in
  fst r = Return
  /\ boxes (snd r) = [showerror "Erro na Compressão" "disk full"]
  /\ calls (snd r)
     = [(GuiLogs.merge_header w gs (YStr "merged.pdf") ++ [YStr "a.pdf"; YStr "b.pdf"])%list;
        compress_argv w gs (YStr "ebook") (YStr "small.pdf") (YStr "merged.pdf")].
Proof.
  refine (@gui_logs_compress_failure_stops (machine true (fails_after 1 1 "disk full"))
            all_enabled_en "/opt/gs/bin/gs" _ _ _ [YStr "a.pdf"; YStr "b.pdf"]
            (YStr "merged.pdf") (YStr "ebook") (YStr "small.pdf") 1%Z "" "" "" "disk full"
            eq_refl eq_refl
            eq_refl eq_refl eq_refl _ eq_refl eq_refl
            eq_refl eq_refl eq_refl
            eq_refl eq_refl
            eq_refl eq_refl _).
  - discriminate.
  - discriminate.
Defined.

(** ** The stages of [acionador_ghostscript.py] in sequence *)

Section ChainPt.

Variable w : world.

Lemma invoked_bare paths : invoked w (map YStr paths) = seq 0 (length paths).
Proof.
  induction paths as [|p l IH]; [reflexivity|].
  cbn [map]. rewrite invoked_cons, IH. cbn [length seq].
  rewrite <- seq_shift. reflexivity.
Qed.

End ChainPt.

(** X15. In [acionador_ghostscript.py], with the three stages switched
    on, a list of n bare paths and an engine that exits with code 0, the
    merge stage makes n invocations, the i-th on the fixed flags
    followed by the first i paths, and records n times the message
    "Junção OK → output"; the compress command then reads the output of
    the merge stage and the archive command the output of the compress
    stage, each run once. *)
Theorem acionador_chains_stages (w : world) (config : yaml) (gs : string)
    (juntar compactar parametros pdfa : list (string * yaml)) (paths : list string)
    (merged level small archive : yaml) :
  always_exits_zero w ->
  engine_path "caminhos" "ghostscript" config = Some gs ->
  os_path_exists w (pdfa_def_path w gs) = true ->
  section_of config "juntar" = Some juntar ->
  truthy (dict_get juntar "ativado" (YBool false)) = true ->
  dict_get juntar "arquivos" (YList []) = YList (map YStr paths) ->
  paths <> [] ->
  lookup "saida" juntar = Some merged ->
  is_none merged = false ->
  section_of config "compactar" = Some compactar ->
  truthy (dict_get compactar "ativado" (YBool false)) = true ->
  lookup "saida" compactar = Some small ->
  is_none small = false ->
  section_of config "parametros" = Some parametros ->
  lookup "compactacao" parametros = Some level ->
  section_of config "pdfa" = Some pdfa ->
  truthy (dict_get pdfa "ativado" (YBool false)) = true ->
  lookup "saida" pdfa = Some archive ->
  let r := Acionador.process w config start in
  fst r = Val (app (repeat ("Junção OK → " ++ py_str w merged) (length paths))
                   ["Compressão OK → " ++ py_str w small;
                    "PDF/A OK → " ++ py_str w archive])
  /\ calls (snd r)
     = (map (fun i => (Acionador.merge_header w gs merged
                       ++ map YStr (firstn (S i) paths))%list)
          (seq 0 (length paths))
        ++ [compress_argv w gs level small merged;
            Acionador.pdfa_cmd w gs (pdfa_def_path w gs) archive small])%list.
Proof.
  intros Hok Hgs Hdef Hm Hmen Hfiles Hne Hmo Hmn Hc Hcen Hco Hcn Hs Hlv Hp Hpen Hpo r.
  subst r.
  rewrite (process_pt_eq w _ Hgs), Hdef.
  destruct (section_of_inv _ _ Hm) as (m & -> & Hlm).
  destruct (section_of_inv _ _ Hc) as (m1 & E1 & Hlc). injection E1 as <-.
  destruct (section_of_inv _ _ Hs) as (m2 & E2 & Hls). injection E2 as <-.
  destruct (section_of_inv _ _ Hp) as (m3 & E3 & Hlp). injection E3 as <-.
  assert (Hv : forall h c, classify (subprocess_run w h c) = (true, "")).
  { intros h c. destruct (Hok h c) as (o & e & ->). reflexivity. }
  assert (Ht : truthy (YList (map YStr paths)) = true)
    by (destruct paths; [contradiction | reflexivity]).
  unfold Acionador.stages, Acionador.merge, Acionador.merge_block, Acionador.merge_run.
  go.
  change (Acionador.merge_header w gs merged) with (Acionador.merge_cmd w gs merged []).
  rewrite bind_cases.
  match goal with
  | |- context [Acionador.merge_loop w merged ?items ?cmd ?ms ?i ?s] =>
      destruct (merge_loop_ok gs merged Hok items [] ms i s) as (H1 & H2 & H3);
      cbv zeta in H1, H2, H3;
      destruct (Acionador.merge_loop w merged items cmd ms i s) as [res st1]
  end.
  cbn [fst snd app calls boxes] in H1, H2, H3. subst res.
  rewrite invoked_bare in *. rewrite length_seq in *.
  assert (Hinv : seq 0 (length paths) <> []) by (destruct paths; [contradiction | discriminate]).
  destruct (seq 0 (length paths)) as [|i0 l0] eqn:Eseq; [contradiction|].
  rewrite <- Eseq in *. clear Hinv.
  rewrite bind_cases.
  destruct st1 as [l1 c1 b1]. cbn [calls boxes] in H2, H3. subst c1 b1.
  rewrite bind_cases.
  rewrite (@compress_pt_eq w m gs compactar parametros small level _ merged _
             Hlc Hcen Hco Hls Hlv Hmn).
  cbv zeta. rewrite Hv. cbv beta iota.
  rewrite (@pdfa_pt_eq w m gs pdfa archive _ _ small _ Hlp Hpen Hpo Hcn).
  cbv zeta. rewrite Hv. cbn [fst snd calls bind log_write messagebox ret].
  split.
  - unfold append. rewrite <- app_assoc. reflexivity.
  - change (Acionador.merge_cmd w gs merged []) with (Acionador.merge_header w gs merged).
    rewrite <- app_assoc. cbn [app]. f_equal.
    apply map_ext. intros i. rewrite firstn_map. apply merge_cmd_bare.
Qed.

Lemma acionador_chains_stages_witness :
  let w := machine true (exits 0 "") in
  let gs := "/opt/gs/bin/gs" in
  let r := Acionador.process w all_enabled_pt start in
  fst r = Val (app (repeat ("Junção OK → " ++ py_str w (YStr "merged.pdf"))
                      (length ["a.pdf"; "b.pdf"]))
                   ["Compressão OK → " ++ py_str w (YStr "small.pdf");
                    "PDF/A OK → " ++ py_str w (YStr "archive.pdf")])
  /\ calls (snd r)
     = (map (fun i => (Acionador.merge_header w gs (YStr "merged.pdf")
                       ++ map YStr (firstn (S i) ["a.pdf"; "b.pdf"]))%list)
          (seq 0 (length ["a.pdf"; "b.pdf"]))
        ++ [compress_argv w gs (YStr "ebook") (YStr "small.pdf") (YStr "merged.pdf");
            Acionador.pdfa_cmd w gs (pdfa_def_path w gs) (YStr "archive.pdf")
              (YStr "small.pdf")])%list.
Proof.
  refine (@acionador_chains_stages (machine true (exits 0 "")) all_enabled_pt
            "/opt/gs/bin/gs" _ _ _ _ ["a.pdf"; "b.pdf"]
            (YStr "merged.pdf") (YStr "ebook") (YStr "small.pdf") (YStr "archive.pdf")
            (exits_zero_always true "") eq_refl eq_refl
            eq_refl eq_refl eq_refl _ eq_refl eq_refl
            eq_refl eq_refl eq_refl eq_refl
            eq_refl eq_refl
            eq_refl eq_refl eq_refl).
  discriminate.
Defined.

(** ** [load_config] *)

(** X16. When the file dialog is cancelled, the button shows the box
    "Nenhum arquivo YAML selecionado." and does nothing else, in both
    files: nothing is logged and the engine is not run. *)
Theorem no_file_selected_stops (d : desk) (w : world) :
  askopenfilename d = "" ->
  executar_pt d w start
  = (Return, mkState [] [] [showerror "Erro" "Nenhum arquivo YAML selecionado."])
  /\ executar_en d w start
     = (Return, mkState [] [] [showerror "Erro" "Nenhum arquivo YAML selecionado."]).
Proof.
  intros H. unfold executar_pt, executar_en, load_config. rewrite H. split; reflexivity.
Qed.

Lemma no_file_selected_stops_witness :
  let d := desk_of "" (Document all_enabled_pt) in
  let w := machine true (exits 0 "") in
  executar_pt d w start
  = (Return, mkState [] [] [showerror "Erro" "Nenhum arquivo YAML selecionado."])
  /\ executar_en d w start
     = (Return, mkState [] [] [showerror "Erro" "Nenhum arquivo YAML selecionado."]).
Proof.
  exact (@no_file_selected_stops (desk_of "" (Document all_enabled_pt))
           (machine true (exits 0 "")) eq_refl).
Defined.

(** X17. When opening or parsing the chosen file raises, the button
    shows the box "Erro ao ler YAML" with the text of the exception and
    does nothing else, in both files. *)
Theorem unreadable_file_stops (d : desk) (w : world) (text : string) :
  askopenfilename d <> "" ->
  safe_load d (askopenfilename d) = Load_error text ->
  executar_pt d w start = (Return, mkState [] [] [showerror "Erro ao ler YAML" text])
  /\ executar_en d w start = (Return, mkState [] [] [showerror "Erro ao ler YAML" text]).
Proof.
  intros Hne H. unfold executar_pt, executar_en, load_config. cbn [truthy].
  destruct (askopenfilename d =? "") eqn:E; [apply String.eqb_eq in E; contradiction|].
  cbn [negb]. rewrite H. split; reflexivity.
Qed.

Lemma unreadable_file_stops_witness :
  let d := desk_of "config.yaml" (Load_error "mapping values are not allowed here") in
  let w := machine true (exits 0 "") in
  executar_pt d w start
  = (Return, mkState [] []
               [showerror "Erro ao ler YAML" "mapping values are not allowed here"])
  /\ executar_en d w start
     = (Return, mkState [] []
                  [showerror "Erro ao ler YAML" "mapping values are not allowed here"]).
Proof.
  refine (@unreadable_file_stops
            (desk_of "config.yaml" (Load_error "mapping values are not allowed here"))
            (machine true (exits 0 "")) _ _ eq_refl).
  discriminate.
Defined.

(** X18. When the chosen file holds an empty document (nothing, an
    empty mapping, an empty list, an empty string, 0 or false), the
    button does nothing at all, in both files: no box, no log line, no
    invocation. *)
Theorem empty_document_is_silent (d : desk) (w : world) (doc : yaml) :
  askopenfilename d <> "" ->
  safe_load d (askopenfilename d) = Document doc ->
  truthy doc = false ->
  executar_pt d w start = (Return, start)
  /\ executar_en d w start = (Return, start).
Proof.
  intros Hne H Hdoc.
  unfold executar_pt, executar_en, load_config, Acionador.process, GuiLogs.process.
  cbn [truthy].
  destruct (askopenfilename d =? "") eqn:E; [apply String.eqb_eq in E; contradiction|].
  cbn [negb]. rewrite H, !bind_ret, Hdoc. split; reflexivity.
Qed.

Lemma empty_document_is_silent_witness :
  let d := desk_of "config.yaml" (Document (YMap [])) in
  let w := machine true (exits 0 "") in
  executar_pt d w start = (Return, start) /\ executar_en d w start = (Return, start).
Proof.
  refine (@empty_document_is_silent (desk_of "config.yaml" (Document (YMap [])))
            (machine true (exits 0 "")) (YMap []) _ eq_refl eq_refl).
  discriminate.
Defined.

(** ** What [run_gs] writes *)

(** X19. Whatever the outcome, [run_gs] appends to the log, in this
    order: the banner, "Command:", one line per element of the command
    (indented by two spaces), then the lines of the outcome (stdout and
    stderr, stripped, and the exit line; or the exception); it shows no
    box and records the one invocation. *)
Theorem run_gs_logs_command_then_outcome (w : world) (cmd : list yaml) (st : state) :
  log (snd (run_gs w cmd st))
  = app (log st)
        ((nl ++ "--- Running Ghostscript Command ---")
         :: "Command:"
         :: app (map (fun c => "  " ++ py_str w c) cmd)
                (outcome_lines w (subprocess_run w (calls st) cmd)))
  /\ boxes (snd (run_gs w cmd st)) = boxes st
  /\ calls (snd (run_gs w cmd st)) = (calls st ++ [cmd])%list.
Proof. rewrite run_gs_eq. repeat split. Qed.

(** ** Page bounds that are not positive *)

(** X20. In the merge command of [acionador_ghostscript.py], a page
    bound given as the integer 0 leaves no flag, and any other integer,
    negative ones included, is written into the flag as it is. *)
Theorem page_bound_zero_is_dropped (w : world) (d : list (string * yaml))
    (path : string) (first last : Z) :
  dict_get d "arquivo" YNull = YStr path ->
  path <> "" ->
  dict_get d "pagina_inicial" YNull = YInt first ->
  dict_get d "pagina_final" YNull = YInt last ->
  Acionador.item_args w (YMap d)
  = (int_flag "-dFirstPage=" first ++ int_flag "-dLastPage=" last ++ [YStr path])%list.
Proof.
  intros Hpath Hne Hfirst Hlast.
  unfold Acionador.item_args, Acionador.item_step, Acionador.page_flag, int_flag.
  rewrite Hpath, Hfirst, Hlast. cbn [truthy py_str].
  destruct (path =? "") eqn:E; [apply String.eqb_eq in E; contradiction|].
  cbn [negb]. destruct (first =? 0)%Z, (last =? 0)%Z; reflexivity.
Qed.

Lemma page_bound_zero_is_dropped_witness :
  Acionador.item_args (machine true (exits 0 ""))
    (YMap [("arquivo", YStr "a.pdf"); ("pagina_inicial", YInt 0);
           ("pagina_final", YInt (-3))])
  = (int_flag "-dFirstPage=" 0 ++ int_flag "-dLastPage=" (-3) ++ [YStr "a.pdf"])%list.
Proof.
  refine (@page_bound_zero_is_dropped (machine true (exits 0 ""))
            [("arquivo", YStr "a.pdf"); ("pagina_inicial", YInt 0);
             ("pagina_final", YInt (-3))]
            "a.pdf" 0 (-3) eq_refl _ eq_refl eq_refl).
  discriminate.
Defined.

(** ** A failing merge invocation in [acionador_ghostscript.py] *)

(** X21. In the merge loop of [acionador_ghostscript.py], when the
    invocation made for an item fails, be the item a path, a dictionary
    with a path or an entry that is not recognized, the run stops there
    on the box "Erro na junção " that carries the error detail: the
    items that follow are not processed and no further invocation is
    made. *)
Theorem merge_loop_stops_at_first_failure (w : world) (saida item : yaml)
    (rest cmd : list yaml) (messages : list string) (input : option yaml)
    (st : state) (err : string) :
  skipped w item = false ->
  classify (subprocess_run w (calls st) (cmd ++ Acionador.item_args w item))
  = (false, err) ->
  let r := Acionador.merge_loop w saida (item :: rest) cmd messages input st in
  fst r = Return
  /\ calls (snd r) = (calls st ++ [(cmd ++ Acionador.item_args w item)%list])%list
  /\ boxes (snd r) = (boxes st ++ [showerror "Erro na junção " err])%list.
Proof.
  intros Hstep Hfail r. subst r. unfold skipped, Acionador.item_args in *.
  rewrite merge_loop_cons. cbv zeta.
  destruct (Acionador.item_step w item) as [args| |]; [|discriminate|].
  - rewrite bind_run_gs, Hfail. repeat split.
  - rewrite app_nil_r in *. rewrite bind_log_write, bind_run_gs.
    cbn [calls boxes]. rewrite Hfail. repeat split.
Qed.

(** Two instances with an engine that exits with code 1: a list that
    starts with an entry that is not recognized, and a list of bare
    paths. *)
Lemma merge_loop_stops_at_first_failure_witness :
  let w := machine true (exits 1 "no such file") in
  let cmd := Acionador.merge_header w "gs" (YStr "merged.pdf") in
  (let r := Acionador.merge_loop w (YStr "merged.pdf") [YInt 5; YStr "b.pdf"]
              cmd [] None start in
   fst r = Return
   /\ calls (snd r) = [cmd]
   /\ boxes (snd r) = [showerror "Erro na junção " "no such file"])
  /\ (let r := Acionador.merge_loop w (YStr "merged.pdf") [YStr "a.pdf"; YStr "b.pdf"]
                 cmd [] None start in
      fst r = Return
      /\ calls (snd r) = [(cmd ++ [YStr "a.pdf"])%list]
      /\ boxes (snd r) = [showerror "Erro na junção " "no such file"]).
Proof.
  split.
  - exact (@merge_loop_stops_at_first_failure (machine true (exits 1 "no such file"))
             (YStr "merged.pdf") (YInt 5) [YStr "b.pdf"]
             (Acionador.merge_header (machine true (exits 1 "no such file")) "gs"
                (YStr "merged.pdf"))
             [] None start "no such file" eq_refl eq_refl).
  - exact (@merge_loop_stops_at_first_failure (machine true (exits 1 "no such file"))
             (YStr "merged.pdf") (YStr "a.pdf") [YStr "b.pdf"]
             (Acionador.merge_header (machine true (exits 1 "no such file")) "gs"
                (YStr "merged.pdf"))
             [] None start "no such file" eq_refl eq_refl).
Defined.

(** ** The file dialog of the merge stage *)

Section Picked.

Variable w : world.

Local Arguments String.append : simpl never.
Local Arguments run_gs : simpl never.

Lemma merge_en_picked m gs section first rest output st :
  lookup "merge" m = Some (YMap section) ->
  truthy (dict_get section "enabled" (YBool false)) = true ->
  truthy (dict_get section "files" (YList [])) = false ->
  askopenfilenames w = first :: rest ->
  lookup "output" section = Some output ->
  let cmd := (GuiLogs.merge_header w gs output ++ map YStr (first :: rest))%list in
  calls (snd (GuiLogs.merge w (YMap m) gs st)) = (calls st ++ [cmd])%list
  /\ fst (GuiLogs.merge w (YMap m) gs st)
     = (if fst (classify (subprocess_run w (calls st) cmd))
        then Val (["Merge OK → " ++ py_str w output], output)
        else Return).
Proof.
  intros Hsec Hen Hfiles Hpick Hout cmd. subst cmd.
  unfold GuiLogs.merge. go. cbn [truthy negb]. go.
  destruct (classify _) as [[|] err]; go; split; reflexivity.
Qed.

End Picked.

(** X22. In [pdf_tool_gui_logs.py], when the merge stage is switched on
    with an empty or missing list of inputs and files are picked in the
    file dialog, the engine is run once on the fixed flags followed by
    the picked paths in their order. *)
Theorem gui_logs_merge_uses_picked_files (w : world) (config : yaml) (gs : string)
    (merge : list (string * yaml)) (first : string) (rest : list string)
    (output : yaml) (st : state) :
  section_of config "merge" = Some merge ->
  truthy (dict_get merge "enabled" (YBool false)) = true ->
  truthy (dict_get merge "files" (YList [])) = false ->
  askopenfilenames w = first :: rest ->
  lookup "output" merge = Some output ->
  let cmd := (GuiLogs.merge_header w gs output ++ map YStr (first :: rest))%list in
  calls (snd (GuiLogs.merge w config gs st)) = (calls st ++ [cmd])%list
  /\ fst (GuiLogs.merge w config gs st)
     = (if fst (classify (subprocess_run w (calls st) cmd))
        then Val (["Merge OK → " ++ py_str w output], output)
        else Return).
Proof.
  intros Hsec Hen Hfiles Hpick Hout.
  destruct (section_of_inv _ _ Hsec) as (m & -> & Hl).
  now apply merge_en_picked with (section := merge).
Qed.

Lemma gui_logs_merge_uses_picked_files_witness :
  let w := machine_picking ["x.pdf"; "y.pdf"] (exits 0 "") in
  let cmd := (GuiLogs.merge_header w "/opt/gs/bin/gs" (YStr "merged.pdf")
              ++ map YStr ["x.pdf"; "y.pdf"])%list in
  calls (snd (GuiLogs.merge w empty_merge_en "/opt/gs/bin/gs" start))
  = (calls start ++ [cmd])%list
  /\ fst (GuiLogs.merge w empty_merge_en "/opt/gs/bin/gs" start)
     = (if fst (classify (subprocess_run w (calls start) cmd))
        then Val (["Merge OK → " ++ py_str w (YStr "merged.pdf")], YStr "merged.pdf")
        else Return).
Proof.
  exact (@gui_logs_merge_uses_picked_files (machine_picking ["x.pdf"; "y.pdf"] (exits 0 ""))
           empty_merge_en "/opt/gs/bin/gs" _ "x.pdf" ["y.pdf"] (YStr "merged.pdf") start
           eq_refl eq_refl eq_refl eq_refl eq_refl).
Defined.

(** ** Bare paths in the two files *)

(** X11. For a list of bare paths and an engine that exits with code 0,
    the merge loop of [acionador_ghostscript.py] runs the engine once
    per path, the i-th time on the five fixed arguments followed by the
    first i paths in their order, with no page flag; the merge stage of
    [pdf_tool_gui_logs.py] runs it once, on the fixed arguments followed
    by all the paths. So the last command of the first file is the one
    command of the second. *)
Theorem bare_paths_commands_coincide (w : world) (config : yaml) (gs : string)
    (merge : list (string * yaml)) (paths : list string) (output : yaml)
    (st st' : state) :
  always_exits_zero w ->
  section_of config "merge" = Some merge ->
  truthy (dict_get merge "enabled" (YBool false)) = true ->
  dict_get merge "files" (YList []) = YList (map YStr paths) ->
  paths <> [] ->
  lookup "output" merge = Some output ->
  let flags := [YStr gs; YStr "-dBATCH"; YStr "-dNOPAUSE"; YStr "-sDEVICE=pdfwrite";
                YStr ("-sOutputFile=" ++ py_str w output)] in
  let pt := Acionador.merge_run w gs (Some (YList (map YStr paths))) (Some output) st in
  let en := GuiLogs.merge w config gs st' in
  calls (snd pt)
  = (calls st
     ++ map (fun i => flags ++ map YStr (firstn (S i) paths)) (seq 0 (length paths)))%list
  /\ calls (snd en) = (calls st' ++ [(flags ++ map YStr paths)%list])%list
  /\ last (calls (snd pt)) [] = (flags ++ map YStr paths)%list
  /\ last (calls (snd en)) [] = (flags ++ map YStr paths)%list.
Proof.
  intros Hok Hsec Hen Hfiles Hne Hout flags pt en.
  assert (Hpt : calls (snd pt)
                = (calls st
                   ++ map (fun i => flags ++ map YStr (firstn (S i) paths))
                        (seq 0 (length paths)))%list).
  { destruct (merge_loop_ok gs output Hok (map YStr paths) [] [] None st) as (_ & H & _).
    cbv zeta in H. cbn [app] in H. rewrite invoked_bare in H.
    subst pt. etransitivity; [exact H|]. f_equal.
    apply map_ext. intros i. rewrite firstn_map. apply merge_cmd_bare. }
  assert (Hen' : calls (snd en) = (calls st' ++ [(flags ++ map YStr paths)%list])%list).
  { subst en. destruct (section_of_inv _ _ Hsec) as (m & -> & Hl).
    assert (Hne' : map YStr paths <> []) by (destruct paths; [contradiction | discriminate]).
    rewrite (@merge_en_eq w m gs merge (map YStr paths) output st' Hl Hen Hfiles Hne' Hout).
    cbv zeta. destruct (classify _) as [[|] err]; reflexivity. }
  split; [exact Hpt|]. split; [exact Hen'|]. split.
  - rewrite Hpt. destruct paths as [|p l]; [contradiction|].
    cbn [length]. rewrite seq_S, map_app, app_assoc. cbn [map plus].
    rewrite last_last. now rewrite firstn_all2 by (cbn [length]; lia).
  - rewrite Hen'. apply last_last.
Qed.

Lemma bare_paths_commands_coincide_witness :
  let w := machine true (exits 0 "") in
  let paths := ["a.pdf"; "b.pdf"] in
  let config :=
    YMap [("merge", YMap [("enabled", YBool true);
                          ("files", YList [YStr "a.pdf"; YStr "b.pdf"]);
                          ("output", YStr "merged.pdf")])] in
  let flags := [YStr "gs"; YStr "-dBATCH"; YStr "-dNOPAUSE"; YStr "-sDEVICE=pdfwrite";
                YStr ("-sOutputFile=" ++ py_str w (YStr "merged.pdf"))] in
  let pt := Acionador.merge_run w "gs" (Some (YList (map YStr paths)))
              (Some (YStr "merged.pdf")) start in
  let en := GuiLogs.merge w config "gs" start in
  calls (snd pt)
  = (calls start
     ++ map (fun i => flags ++ map YStr (firstn (S i) paths)) (seq 0 (length paths)))%list
  /\ calls (snd en) = (calls start ++ [(flags ++ map YStr paths)%list])%list
  /\ last (calls (snd pt)) [] = (flags ++ map YStr paths)%list
  /\ last (calls (snd en)) [] = (flags ++ map YStr paths)%list.
Proof.
  refine (@bare_paths_commands_coincide (machine true (exits 0 ""))
            (YMap [("merge", YMap [("enabled", YBool true);
                                   ("files", YList [YStr "a.pdf"; YStr "b.pdf"]);
                                   ("output", YStr "merged.pdf")])])
            "gs" _ ["a.pdf"; "b.pdf"] (YStr "merged.pdf") start start
            (exits_zero_always true "") eq_refl eq_refl eq_refl _ eq_refl).
  discriminate.
Defined.
